(** * Batch inference pipeline (inference.py): fetch, predict, persist

    A shallow embedding of [src/inference.py].  The script talks to three
    outside parties (the S3 client of boto3, the MLflow registry and the
    local file system) and reports on standard output.  The embedding keeps
    the script's control flow (try/except blocks, early returns, the
    module-level driver) and replaces each outside party by an answer
    function collected in the record [Env]; every outside call and every
    printed line is appended to a chronological history, so that statements
    such as "no client was constructed" or "exactly one metadata probe" are
    statements about that history. *)

From Stdlib Require Import Ascii.
From stdpp Require Import base strings list gmap pretty sorting.

Local Open Scope string_scope.

(** ** Python values the script handles *)

(** The exceptions the handlers of the script tell apart.  [OtherError cls msg]
    stands for an instance of any other subclass of [Exception]
    (NameError, KeyError, ValueError, OSError, a plain Exception, ...) with
    class name [cls] and [str(e) = msg].  Exceptions outside [Exception]
    (KeyboardInterrupt, SystemExit) are not modelled. *)
Inductive exn : Type :=
  | NoCredentialsError
  | ClientError (code msg : string)
  | OtherError (cls msg : string).

(** [str(e)], as the f-strings [{e}] render it. *)
Definition exn_str (e : exn) : string :=
  match e with
  | NoCredentialsError => "Unable to locate credentials"
  | ClientError _ msg => msg
  | OtherError _ msg => msg
  end.

(** Outcome of a call: a returned value or a raised exception. *)
Inductive res (A : Type) : Type :=
  | Ret (a : A)
  | Raise (e : exn).
Arguments Ret {A} a.
Arguments Raise {A} e.

(** A table cell; [VNaN] is the missing cell pandas fills in.  A cell stands
    for what it shows: the change of a column's dtype that comes with a
    missing cell is not modelled. *)
Inductive value : Type :=
  | VInt (n : Z)
  | VText (s : string)
  | VNaN.

(** A pandas DataFrame with a positional (range) index: [nrows] rows and the
    named columns in order. *)
Record DataFrame : Type := mkFrame {
  nrows : nat;
  columns : list (string * list value)
}.

(** Every column holds one cell per row. *)
Definition frame_ok (df : DataFrame) : Prop :=
  Forall (fun c : string * list value => length c.2 = nrows df) (columns df).

(** [df[name]]: the column called [name]; [None] stands for KeyError. *)
Fixpoint find_column (name : string) (cols : list (string * list value))
  : option (list value) :=
  match cols with
  | [] => None
  | (n, vs) :: rest => if String.eqb n name then Some vs else find_column name rest
  end.

Definition get_column (df : DataFrame) (name : string) : option (list value) :=
  find_column name (columns df).

(** Row [i] of a table: the cell of each column at position [i]. *)
Definition frame_row (df : DataFrame) (i : nat) : list (string * option value) :=
  map (fun c : string * list value => (c.1, c.2 !! i)) (columns df).

(** [df.head()]: the first five rows. *)
Definition frame_head (df : DataFrame) : DataFrame :=
  mkFrame (Nat.min 5 (nrows df))
          (map (fun c : string * list value => (c.1, take 5 c.2)) (columns df)).

(** What a model's [predict] hands back, as far as the driver uses it: a
    positional sequence (a list or a one-dimensional array), or a pandas
    Series, whose cells each stand under an integer index label. *)
Inductive answer : Type :=
  | Positional (cells : list value)
  | Labelled (items : list (Z * value)).

(** The predictions of an answer in the order in which they were returned. *)
Definition answer_values (a : answer) : list value :=
  match a with
  | Positional cells => cells
  | Labelled items => items.*2
  end.

(** ** History of a run *)

(** What the script does to the outside, with the answer it got.  Arguments
    that Python may pass as [None] are [option string]. *)
Inductive Event : Type :=
  | EPrint (line : string)
  | EPrintFrame (df : DataFrame)
  | EClient (endpoint_url key_id secret : option string) (region : string)
            (r : res unit)
  | EHeadObject (bucket key : option string) (r : res N)
  | EDownloadFile (bucket key : option string) (path : string) (r : res string)
  | EUploadFile (path : string) (bucket : option string) (key : string)
                (r : res unit)
  | EMkdirParent (path : string) (r : res unit)
  | EReadCsv (path : string) (r : res DataFrame)
  | EToCsv (path : string) (df : DataFrame) (r : res unit)
  | ESetTrackingUri (uri : option string) (r : res unit)
  | EGetTrackingUri (r : res string)
  | ELoadModel (ref : option string) (r : res unit)
  | EModelPredict (input : DataFrame) (r : res answer).

(** The local regular files (path to content) and the history so far, oldest
    event first. *)
Record State : Type := mkState {
  fs : gmap string string;
  hist : list Event
}.

(** The outside world.  Every answer may depend on the state reached, so the
    same call can be answered differently at different times.  For a write
    of the staging file that fails, [csv_failed_after] tells how far it got:
    [None] when the file could not be opened, [Some k] when it was opened,
    and so emptied, and [k] bytes reached it. *)
Record Env : Type := mkEnv {
  getenv : string -> option string;
  boto3_client : State -> option string -> option string -> option string ->
                 string -> res unit;
  head_object : State -> option string -> option string -> res N;
  download_file : State -> option string -> option string -> string -> res string;
  upload_file : State -> string -> option string -> string -> res unit;
  mkdir_parent : State -> string -> res unit;
  parse_csv : State -> string -> res DataFrame;
  csv_text : DataFrame -> string;
  csv_write : State -> string -> res unit;
  csv_failed_after : State -> string -> option nat;
  set_tracking_uri : State -> option string -> res unit;
  get_tracking_uri : State -> res string;
  load_model : State -> option string -> res unit;
  model_predict : State -> DataFrame -> res answer
}.

(** ** The monad of script fragments: state passing with exceptions *)

Definition M (A : Type) : Type := State -> State * res A.

Definition ret {A} (a : A) : M A := fun st => (st, Ret a).

Definition raise {A} (e : exn) : M A := fun st => (st, Raise e).

Definition bind {A B} (m : M A) (k : A -> M B) : M B :=
  fun st =>
    match m st with
    | (st', Ret a) => k a st'
    | (st', Raise e) => (st', Raise e)
    end.

(** [try: m  except ...: h e]; a handler that does not match re-raises. *)
Definition try_except {A} (m : M A) (h : exn -> M A) : M A :=
  fun st =>
    match m st with
    | (st', Ret a) => (st', Ret a)
    | (st', Raise e) => h e st'
    end.

Declare Scope py_scope.
Delimit Scope py_scope with py.
Notation "x <- m ;; k" := (bind m (fun x => k))
  (at level 100, m at next level, right associativity) : py_scope.
Notation "m ;; k" := (bind m (fun _ => k))
  (at level 100, right associativity) : py_scope.
Local Open Scope py_scope.

Definition log (e : Event) : M unit :=
  fun st => (mkState (fs st) (hist st ++ [e]), Ret tt).

Definition print (line : string) : M unit := log (EPrint line).

(** An outside call without local effect: ask, record, return or raise. *)
Definition call {A} (ask : State -> res A) (ev : res A -> Event) : M A :=
  fun st =>
    let r := ask st in
    (mkState (fs st) (hist st ++ [ev r]), r).

(** ** Helpers from the Python library *)

(** [str(x)] for an argument that may be [None]. *)
Definition py_str (x : option string) : string :=
  match x with
  | Some s => s
  | None => "None"
  end.

(** The pieces of [s] between occurrences of [sep]. *)
Fixpoint split_on (sep : Ascii.ascii) (s : string) : list string :=
  match s with
  | EmptyString => [EmptyString]
  | String c rest =>
      if Ascii.eqb c sep then EmptyString :: split_on sep rest
      else match split_on sep rest with
           | piece :: pieces => String c piece :: pieces
           | [] => [String c EmptyString]
           end
  end.

Definition is_path_part (p : string) : bool :=
  negb (String.eqb p "") && negb (String.eqb p ".").

(** [Path(p).name] (POSIX): the last component of [p], where empty and "."
    components do not count; the empty string when there is none. *)
Definition path_name (p : string) : string :=
  List.last (List.filter is_path_part (split_on "/"%char p)) "".

(** [os.path.isfile] and [os.path.getsize] over the modelled files. *)
Definition isfile (st : State) (path : string) : bool :=
  bool_decide (is_Some (fs st !! path)).

Definition getsize (path : string) : M N :=
  fun st =>
    match fs st !! path with
    | Some content => (st, Ret (N.of_nat (String.length content)))
    | None => (st, Raise (OtherError "FileNotFoundError"
                 ("[Errno 2] No such file or directory: '" +:+ path +:+ "'")))
    end.


Definition os_path_isfile (path : string) : M bool :=
  fun st => (st, Ret (isfile st path)).

(** [s3_client.download_file]: on success the object's content is stored at
    [path]; a failed transfer is taken to leave the local files as they were. *)
Definition s3_download_file (env : Env) (bucket key : option string)
    (path : string) : M unit :=
  fun st =>
    let r := download_file env st bucket key path in
    match r with
    | Ret content =>
        (mkState (<[path := content]> (fs st))
                 (hist st ++ [EDownloadFile bucket key path r]), Ret tt)
    | Raise e =>
        (mkState (fs st) (hist st ++ [EDownloadFile bucket key path r]), Raise e)
    end.

(** [df.to_csv(path, index=False)]: on success [path] holds the whole
    serialisation of [df].  The file is opened for writing, which empties
    it, before the first byte is written: a write that fails after the
    opening leaves the part written so far. *)
Definition to_csv (env : Env) (df : DataFrame) (path : string) : M unit :=
  fun st =>
    let r := csv_write env st path in
    match r with
    | Ret _ =>
        (mkState (<[path := csv_text env df]> (fs st))
                 (hist st ++ [EToCsv path df r]), Ret tt)
    | Raise e =>
        (mkState
           match csv_failed_after env st path with
           | Some written =>
               <[path := String.substring 0 written (csv_text env df)]> (fs st)
           | None => fs st
           end
           (hist st ++ [EToCsv path df r]), Raise e)
    end.

(** [pd.read_csv(path)]. *)
Definition read_csv (env : Env) (path : string) : M DataFrame :=
  fun st =>
    let r := match fs st !! path with
             | Some content => parse_csv env st content
             | None => Raise (OtherError "FileNotFoundError"
                 ("[Errno 2] No such file or directory: '" +:+ path +:+ "'"))
             end in
    (mkState (fs st) (hist st ++ [EReadCsv path r]), r).

(** ** Transfer client *)

Module Transfer.

(** The [except] clauses of [upload_file_to_s3], in order. *)
Definition upload_handler (bucket_name : option string) (e : exn) : M bool :=
  match e with
  | NoCredentialsError =>
      print "❌ Error: AWS credentials not found. Please configure your credentials." ;;
      print "You can set them via:" ;;
      print "  - Environment variables (AWS_ACCESS_KEY_ID, AWS_SECRET_ACCESS_KEY)" ;;
      print "  - AWS credentials file (~/.aws/credentials)" ;;
      print "  - IAM roles (if running on EC2)" ;;
      ret false
  | ClientError error_code _ =>
      (if String.eqb error_code "NoSuchBucket" then
         print ("❌ Error: Bucket '" +:+ py_str bucket_name +:+ "' does not exist.")
       else if String.eqb error_code "AccessDenied" then
         print ("❌ Error: Access denied. Check your permissions for bucket '"
                +:+ py_str bucket_name +:+ "'.")
       else
         print ("❌ Error uploading file: " +:+ exn_str e)) ;;
      ret false
  | OtherError _ _ =>
      print ("❌ Unexpected error: " +:+ exn_str e) ;;
      ret false
  end.

Definition upload_file_to_s3 (env : Env) (file_path : string)
    (bucket_name object_key endpoint_url aws_access_key_id
     aws_secret_access_key : option string) (region : string) : M bool :=
  exists_ <- os_path_isfile file_path ;;
  if negb exists_ then
    print ("Error: File '" +:+ file_path +:+ "' not found.") ;;
    ret false
  else
    let object_key :=
      match object_key with
      | None => path_name file_path
      | Some k => k
      end in
    try_except
      (call (fun st => boto3_client env st endpoint_url aws_access_key_id
                         aws_secret_access_key region)
            (EClient endpoint_url aws_access_key_id aws_secret_access_key region) ;;
       file_size <- getsize file_path ;;
       print ("Uploading '" +:+ file_path +:+ "' (" +:+ pretty file_size
              +:+ " bytes) to bucket '" +:+ py_str bucket_name +:+ "' as '"
              +:+ object_key +:+ "'...") ;;
       call (fun st => upload_file env st file_path bucket_name object_key)
            (EUploadFile file_path bucket_name object_key) ;;
       print ("✅ Successfully uploaded '" +:+ object_key +:+ "' to bucket '"
              +:+ py_str bucket_name +:+ "'") ;;
       let file_url :=
         match endpoint_url with
         | None => "https://" +:+ py_str bucket_name +:+ ".s3." +:+ region
                   +:+ ".amazonaws.com/" +:+ object_key
         | Some endpoint => endpoint +:+ "/" +:+ py_str bucket_name +:+ "/"
                            +:+ object_key
         end in
       print ("📁 File URL: " +:+ file_url) ;;
       ret true)
      (upload_handler bucket_name).

(** The [except] clauses of the outer [try] of [download_file_from_s3]. *)
Definition download_handler (bucket_name object_key : option string) (e : exn)
  : M bool :=
  match e with
  | NoCredentialsError =>
      print "❌ Error: AWS credentials not found. Please configure your credentials." ;;
      print "You can set them via:" ;;
      print "  - Environment variables (AWS_ACCESS_KEY_ID, AWS_SECRET_ACCESS_KEY)" ;;
      print "  - AWS credentials file (~/.aws/credentials)" ;;
      print "  - IAM roles (if running on EC2)" ;;
      ret false
  | ClientError error_code _ =>
      (if String.eqb error_code "NoSuchBucket" then
         print ("❌ Error: Bucket '" +:+ py_str bucket_name +:+ "' does not exist.")
       else if String.eqb error_code "AccessDenied" then
         print ("❌ Error: Access denied. Check your permissions for bucket '"
                +:+ py_str bucket_name +:+ "' and object '" +:+ py_str object_key
                +:+ "'.")
       else
         print ("❌ Error downloading file: " +:+ exn_str e)) ;;
      ret false
  | OtherError _ _ =>
      print ("❌ Unexpected error: " +:+ exn_str e) ;;
      ret false
  end.

(** The inner [try] around the metadata probe.  [Some b] is the early
    [return b]; [None] lets the function go on to the transfer. *)
Definition probe (env : Env) (bucket_name object_key : option string)
    (file_path : string) : M (option bool) :=
  try_except
    (file_size <- call (fun st => head_object env st bucket_name object_key)
                       (EHeadObject bucket_name object_key) ;;
     print ("Downloading '" +:+ py_str object_key +:+ "' (" +:+ pretty file_size
            +:+ " bytes) from bucket '" +:+ py_str bucket_name +:+ "' to '"
            +:+ file_path +:+ "'...") ;;
     ret None)
    (fun e =>
       match e with
       | ClientError code _ =>
           if String.eqb code "404" then
             print ("❌ Error: Object '" +:+ py_str object_key
                    +:+ "' not found in bucket '" +:+ py_str bucket_name +:+ "'.") ;;
             ret (Some false)
           else
             raise (OtherError "Exception" "Error checking object existence")
       | _ => raise e
       end).

Definition download_file_from_s3 (env : Env) (bucket_name object_key file_path
    endpoint_url aws_access_key_id aws_secret_access_key : option string)
    (region : string) : M bool :=
  file_path <-
    match file_path with
    | Some p => ret p
    | None =>
        match object_key with
        | Some k => ret (path_name k)
        | None => raise (OtherError "TypeError"
            "expected str, bytes or os.PathLike object, not NoneType")
        end
    end ;;
  try_except
    (call (fun st => boto3_client env st endpoint_url aws_access_key_id
                       aws_secret_access_key region)
          (EClient endpoint_url aws_access_key_id aws_secret_access_key region) ;;
     early <- probe env bucket_name object_key file_path ;;
     match early with
     | Some b => ret b
     | None =>
         call (fun st => mkdir_parent env st file_path) (EMkdirParent file_path) ;;
         s3_download_file env bucket_name object_key file_path ;;
         print ("✅ Successfully downloaded '" +:+ py_str object_key +:+ "' to '"
                +:+ file_path +:+ "'") ;;
         present <- os_path_isfile file_path ;;
         (if present then
            local_size <- getsize file_path ;;
            print ("📁 Local file size: " +:+ pretty local_size +:+ " bytes")
          else ret tt) ;;
         ret true
     end)
    (download_handler bucket_name object_key).

End Transfer.

(** ** Model loader *)

Definition predict (env : Env) (input_data : DataFrame) : M answer :=
  let logged_model := getenv env "MLFLOW_LOGGED_MODEL" in
  call (fun st => load_model env st logged_model) (ELoadModel logged_model) ;;
  call (fun st => model_predict env st input_data) (EModelPredict input_data).

(** ** Pipeline driver *)

Module Driver.

Import Transfer.

(** [os.getenv(name, default)]. *)
Definition getenv_or (env : Env) (name default : string) : string :=
  match getenv env name with
  | Some v => v
  | None => default
  end.

Definition persist_predictions (env : Env) (df : DataFrame) : M bool :=
  to_csv env df "/tmp/predictions.csv" ;;
  uploaded <- upload_file_to_s3 env "/tmp/predictions.csv"
                (getenv env "S3_BUCKET_NAME")
                (Some "data/predictions.csv")
                (getenv env "S3_ENDPOINT_URL")
                (getenv env "AWS_ACCESS_KEY_ID")
                (getenv env "AWS_SECRET_ACCESS_KEY")
                (getenv_or env "AWS_DEFAULT_REGION" "us-east-1") ;;
  ret uploaded.

(** The index of a table read from a file: the labels 0, 1, ..., n-1. *)
Definition range_index (n : nat) : list Z := map Z.of_nat (seq 0 n).

(** Reindexing a column that stands under the range index: the cell at
    [label], the missing cell where the column has no such label. *)
Definition cell_at (cells : list value) (label : Z) : value :=
  if decide (0 <= label)%Z then default VNaN (cells !! Z.to_nat label) else VNaN.

(** Reindexing a Series with distinct labels: the cell under [label], the
    missing cell where there is none. *)
Fixpoint labelled_at (items : list (Z * value)) (label : Z) : value :=
  match items with
  | [] => VNaN
  | (l, v) :: rest => if decide (l = label) then v else labelled_at rest label
  end.

(** The union of the range index of [n] rows with the labels of a Series, as
    pandas builds it when the two differ: every label of the Series, the
    labels of the range it lacks, in increasing order. *)
Definition union_index (n : nat) (labels : list Z) : list Z :=
  merge_sort Z.le
    (labels ++ List.filter (fun l => negb (bool_decide (l ∈ labels)))
                           (range_index n)).

(** [pd.DataFrame({"PassengerId": df["PassengerId"], "predictions": predictions})].
    The identifier column is a Series under the input's range index.  A
    positional answer must have one cell per label of that index, or the
    constructor refuses it.  A Series answer is aligned by label: under the
    same index it is taken as it is; otherwise both columns are reindexed to
    the union of the two indexes, with missing cells where a column lacks a
    label, which a Series with repeated labels only allows when the union is
    its own index.  The labels of the assembled table are not kept: the
    driver writes it without them. *)
Definition build_preds_df (df : DataFrame) (predictions : answer)
  : res DataFrame :=
  match get_column df "PassengerId" with
  | None => Raise (OtherError "KeyError" "'PassengerId'")
  | Some ids =>
      match predictions with
      | Positional cells =>
          if Nat.eqb (length cells) (nrows df) then
            Ret (mkFrame (nrows df) [("PassengerId", ids); ("predictions", cells)])
          else
            Raise (OtherError "ValueError"
                     ("array length " +:+ pretty (length cells)
                      +:+ " does not match index length " +:+ pretty (nrows df)))
      | Labelled items =>
          let labels := items.*1 in
          if decide (labels = range_index (nrows df)) then
            Ret (mkFrame (nrows df)
                   [("PassengerId", ids); ("predictions", items.*2)])
          else
            let index := union_index (nrows df) labels in
            if bool_decide (NoDup labels) then
              Ret (mkFrame (length index)
                     [("PassengerId", map (cell_at ids) index);
                      ("predictions", map (labelled_at items) index)])
            else if decide (labels = index) then
              Ret (mkFrame (length index)
                     [("PassengerId", map (cell_at ids) index);
                      ("predictions", items.*2)])
            else
              Raise (OtherError "ValueError"
                       "cannot reindex on an axis with duplicate labels")
      end
  end.

(** An answer lines up with an input of [n] rows by position when it is
    positional, or a Series under the labels of the input, in their order. *)
Definition follows_input (n : nat) (a : answer) : Prop :=
  match a with
  | Positional _ => True
  | Labelled items => items.*1 = range_index n
  end.

Definition lift {A} (r : res A) : M A := fun st => (st, r).

(** The name [df] is bound only by the branch taken after a successful
    download; reading it unbound raises NameError. *)
Definition read_df (df : option DataFrame) : M DataFrame :=
  match df with
  | Some d => ret d
  | None => raise (OtherError "NameError" "name 'df' is not defined")
  end.

(** Lines 241-256: the download step of the driver. *)
Definition main_download (env : Env) : M bool :=
  let bucket_name := getenv env "S3_BUCKET_NAME" in
  let object_key := getenv env "S3_OBJECT_KEY" in
  let endpoint_url := getenv env "S3_ENDPOINT_URL" in
  let aws_access_key_id := getenv env "AWS_ACCESS_KEY_ID" in
  let aws_secret_access_key := getenv env "AWS_SECRET_ACCESS_KEY" in
  let aws_default_region := getenv_or env "AWS_DEFAULT_REGION" "us-east-1" in
  download_file_from_s3 env bucket_name object_key (Some "/tmp/test.csv")
    endpoint_url aws_access_key_id aws_secret_access_key aws_default_region.

(** Lines 241-270: fetch the input and set up the registry.  The result is
    the binding of [df], if any. *)
Definition main_fetch (env : Env) : M (option DataFrame) :=
  downloaded <- main_download env ;;
  df <- (if downloaded then
           df <- read_csv env "/tmp/test.csv" ;;
           log (EPrintFrame (frame_head df)) ;;
           ret (Some df)
         else
           print "File download failed." ;;
           ret None) ;;
  let mlflow_server_url := getenv env "MLFLOW_TRACKING_URI" in
  call (fun st => set_tracking_uri env st mlflow_server_url)
       (ESetTrackingUri mlflow_server_url) ;;
  uri <- call (get_tracking_uri env) EGetTrackingUri ;;
  print ("MLflow Tracking URI: " +:+ uri) ;;
  ret df.

(** Lines 272-277: the guarded prediction. *)
Definition main_predict (env : Env) (df : option DataFrame) : M answer :=
  try_except
    (print "Making predictions..." ;;
     input <- read_df df ;;
     predict env input)
    (fun e => raise (OtherError "Exception"
                       ("❌ Error during prediction: " +:+ exn_str e))).

(** Lines 279-288: assemble and persist. *)
Definition main_store (env : Env) (df : option DataFrame)
    (predictions : answer) : M unit :=
  ids_of <- read_df df ;;
  preds_df <- lift (build_preds_df ids_of predictions) ;;
  print "Predictions:" ;;
  log (EPrintFrame (frame_head preds_df)) ;;
  persist_predictions env preds_df ;;
  ret tt.

(** The [__main__] block. *)
Definition main (env : Env) : M unit :=
  df <- main_fetch env ;;
  predictions <- main_predict env df ;;
  main_store env df predictions.

(** A run starts with the local files [files] and an empty history. *)
Definition start (files : gmap string string) : State := mkState files [].

End Driver.

(** ** Reading a history *)

(** Calls that go to the storage client (its construction and its three
    requests). *)
Definition is_s3_event (e : Event) : bool :=
  match e with
  | EClient _ _ _ _ _ | EHeadObject _ _ _ | EDownloadFile _ _ _ _
  | EUploadFile _ _ _ _ => true
  | _ => false
  end.

Definition is_probe (e : Event) : bool :=
  match e with EHeadObject _ _ _ => true | _ => false end.

Definition is_transfer (e : Event) : bool :=
  match e with
  | EDownloadFile _ _ _ _ | EUploadFile _ _ _ _ => true
  | _ => false
  end.

(** Events that touch the local file system for writing. *)
Definition is_local_write (e : Event) : bool :=
  match e with
  | EMkdirParent _ _ | EDownloadFile _ _ _ _ | EToCsv _ _ _ => true
  | _ => false
  end.

Definition is_prediction (e : Event) : bool :=
  match e with
  | ELoadModel _ _ | EModelPredict _ _ => true
  | _ => false
  end.

Definition is_upload (e : Event) : bool :=
  match e with EUploadFile _ _ _ _ => true | _ => false end.

(** What only the persist step does: staging the output and sending it. *)
Definition is_persist (e : Event) : bool :=
  match e with
  | EToCsv _ _ _ | EUploadFile _ _ _ _ => true
  | _ => false
  end.

Definition count (p : Event -> bool) (evs : list Event) : nat :=
  length (List.filter p evs).

Definition printed (evs : list Event) : list string :=
  omap (fun e => match e with EPrint line => Some line | _ => None end) evs.

(** The lines every "credentials not found" diagnostic consists of. *)
Definition credential_help : list string :=
  [ "❌ Error: AWS credentials not found. Please configure your credentials.";
    "You can set them via:";
    "  - Environment variables (AWS_ACCESS_KEY_ID, AWS_SECRET_ACCESS_KEY)";
    "  - AWS credentials file (~/.aws/credentials)";
    "  - IAM roles (if running on EC2)" ].

(** A request to the storage client answered by "no credentials". *)
Definition signals_no_credentials (e : Event) : bool :=
  match e with
  | EClient _ _ _ _ (Raise NoCredentialsError)
  | EHeadObject _ _ (Raise NoCredentialsError)
  | EDownloadFile _ _ _ (Raise NoCredentialsError)
  | EUploadFile _ _ _ (Raise NoCredentialsError) => true
  | _ => false
  end.

(** ** A sample world

    The scenario of the specification: the staged input has the columns
    PassengerId and Feature1 and three rows.  The answers of the storage
    client and of the model are parameters, so that one world serves the
    successful run and the failing ones. *)

Module Sample.

Definition newline : string := String "010"%char EmptyString.

Definition input_text : string :=
  "PassengerId,Feature1" +:+ newline +:+ "1,0.5" +:+ newline +:+ "2,1.2"
  +:+ newline +:+ "3,0.9" +:+ newline.

Definition input : DataFrame :=
  mkFrame 3 [("PassengerId", [VInt 1; VInt 2; VInt 3]);
             ("Feature1", [VText "0.5"; VText "1.2"; VText "0.9"])].

Definition cell_text (v : option value) : string :=
  match v with
  | Some (VInt n) => pretty n
  | Some (VText s) => s
  | Some VNaN => ""
  | None => ""
  end.

(** Header line, then one comma-separated line per row. *)
Definition render (df : DataFrame) : string :=
  String.concat ""
    (map (fun line => line +:+ newline)
       (String.concat "," (map fst (columns df))
        :: map (fun i => String.concat "," (map (fun c => cell_text c.2) (frame_row df i)))
               (seq 0 (nrows df)))).

Definition variables (name : string) : option string :=
  if String.eqb name "S3_BUCKET_NAME" then Some "models"
  else if String.eqb name "S3_OBJECT_KEY" then Some "data/test.csv"
  else if String.eqb name "MLFLOW_TRACKING_URI" then Some "http://mlflow:5000"
  else if String.eqb name "MLFLOW_LOGGED_MODEL" then Some "runs:/1/model"
  else None.

Definition world (vars : string -> option string) (client : res unit)
    (head : res N) (transfer : res string) (put : res unit)
    (preds : res answer) : Env :=
  mkEnv vars
        (fun _ _ _ _ _ => client)
        (fun _ _ _ => head)
        (fun _ _ _ _ => transfer)
        (fun _ _ _ _ => put)
        (fun _ _ => Ret tt)
        (fun _ _ => Ret input)
        render
        (fun _ _ => Ret tt)
        (fun _ _ => None)
        (fun _ _ => Ret tt)
        (fun _ => Ret "http://mlflow:5000")
        (fun _ _ => Ret tt)
        (fun _ _ => preds).

(** Everything answers; the stub model predicts 0, 1, 0. *)
Definition fine : Env :=
  world variables (Ret tt) (Ret 40%N) (Ret input_text) (Ret tt)
        (Ret (Positional [VInt 0; VInt 1; VInt 0])).

(** The input object is absent. *)
Definition absent : Env :=
  world variables (Ret tt) (Raise (ClientError "404" "Not Found"))
        (Ret input_text) (Ret tt) (Ret (Positional [VInt 0; VInt 1; VInt 0])).

(** The probe is refused for lack of permission. *)
Definition forbidden : Env :=
  world variables (Ret tt) (Raise (ClientError "403" "Forbidden"))
        (Ret input_text) (Ret tt) (Ret (Positional [VInt 0; VInt 1; VInt 0])).

(** No credentials anywhere: every request of the client raises. *)
Definition no_credentials : Env :=
  world variables (Ret tt) (Raise NoCredentialsError) (Raise NoCredentialsError)
        (Raise NoCredentialsError) (Ret (Positional [VInt 0; VInt 1; VInt 0])).

(** The model cannot serve the request. *)
Definition broken_model : Env :=
  world variables (Ret tt) (Ret 40%N) (Ret input_text) (Ret tt)
        (Raise (OtherError "MlflowException" "model not available")).

(** No variable is set: the bucket name is missing and the client refuses
    the request for it. *)
Definition unconfigured : Env :=
  world (fun _ => None) (Ret tt) (Ret 40%N) (Ret input_text)
        (Raise (OtherError "ParamValidationError"
                  "Parameter validation failed: Invalid type for parameter Bucket"))
        (Ret (Positional [VInt 0; VInt 1; VInt 0])).

End Sample.

(** ** Further readings of a history *)

Definition is_client (e : Event) : bool :=
  match e with EClient _ _ _ _ _ => true | _ => false end.

Definition is_download (e : Event) : bool :=
  match e with EDownloadFile _ _ _ _ => true | _ => false end.

Definition is_tracking (e : Event) : bool :=
  match e with
  | ESetTrackingUri _ _ | EGetTrackingUri _ => true
  | _ => false
  end.

(** The exception an outside call was answered with, if any. *)
Definition event_error (e : Event) : option exn :=
  match e with
  | EClient _ _ _ _ (Raise x) | EHeadObject _ _ (Raise x)
  | EDownloadFile _ _ _ (Raise x) | EUploadFile _ _ _ (Raise x)
  | EMkdirParent _ (Raise x) | EReadCsv _ (Raise x) | EToCsv _ _ (Raise x)
  | ESetTrackingUri _ (Raise x) | EGetTrackingUri (Raise x)
  | ELoadModel _ (Raise x) | EModelPredict _ (Raise x) => Some x
  | _ => None
  end.

(** Does the text contain the path separator? *)
Fixpoint has_slash (s : string) : bool :=
  match s with
  | EmptyString => false
  | String c rest => Ascii.eqb c "/"%char || has_slash rest
  end.

(** ** Sample worlds with local faults *)

Module Faults.

(** [env] with other answers of the local file system, the parser and the
    registry configuration. *)
Definition locally (mkdir : res unit) (parse : res DataFrame) (write : res unit)
    (tracking : res unit) (env : Env) : Env :=
  mkEnv (getenv env) (boto3_client env) (head_object env) (download_file env)
        (upload_file env)
        (fun _ _ => mkdir)
        (fun _ _ => parse)
        (csv_text env)
        (fun _ _ => write)
        (csv_failed_after env)
        (fun _ _ => tracking)
        (get_tracking_uri env) (load_model env) (model_predict env).

(** The staging directory cannot be written. *)
Definition read_only : Env :=
  locally (Ret tt) (Ret Sample.input)
          (Raise (OtherError "PermissionError" "[Errno 13] Permission denied"))
          (Ret tt) Sample.fine.

(** The parent directory of the destination cannot be created. *)
Definition no_directory : Env :=
  locally (Raise (OtherError "PermissionError" "[Errno 13] Permission denied"))
          (Ret Sample.input) (Ret tt) (Ret tt) Sample.fine.

(** The staged input is not a table. *)
Definition garbled : Env :=
  locally (Ret tt)
          (Raise (OtherError "ParserError" "Error tokenizing data"))
          (Ret tt) (Ret tt) Sample.fine.

(** The staged input lacks the identifier column. *)
Definition anonymous : Env :=
  locally (Ret tt)
          (Ret (mkFrame 3 [("Feature1", [VText "0.5"; VText "1.2"; VText "0.9"])]))
          (Ret tt) (Ret tt) Sample.fine.

(** The model answers with two predictions for three rows. *)
Definition short_answer : Env :=
  Sample.world Sample.variables (Ret tt) (Ret 40%N) (Ret Sample.input_text)
    (Ret tt) (Ret (Positional [VInt 0; VInt 1])).

(** The bucket does not exist: the transfer requests are refused. *)
Definition no_bucket : Env :=
  Sample.world Sample.variables (Ret tt) (Ret 40%N)
    (Raise (ClientError "NoSuchBucket" "The specified bucket does not exist"))
    (Raise (ClientError "NoSuchBucket" "The specified bucket does not exist"))
    (Ret (Positional [VInt 0; VInt 1; VInt 0])).


(** The disk fills up while the staging file is written: twelve bytes of it
    got there. *)
Definition disk_full : Env :=
  mkEnv (getenv Sample.fine) (boto3_client Sample.fine) (head_object Sample.fine)
        (download_file Sample.fine) (upload_file Sample.fine)
        (mkdir_parent Sample.fine) (parse_csv Sample.fine) (csv_text Sample.fine)
        (fun _ _ => Raise (OtherError "OSError"
                             "[Errno 28] No space left on device"))
        (fun _ _ => Some 12)
        (set_tracking_uri Sample.fine) (get_tracking_uri Sample.fine)
        (load_model Sample.fine) (model_predict Sample.fine).

(** The model answers with a Series whose labels run backwards. *)
Definition reversed_series : Env :=
  Sample.world Sample.variables (Ret tt) (Ret 40%N) (Ret Sample.input_text)
    (Ret tt)
    (Ret (Labelled [(2%Z, VInt 10); (1%Z, VInt 20); (0%Z, VInt 30)])).

End Faults.

(** ** Proof support *)

Import Transfer Driver.

Local Open Scope list_scope.

Ltac unfold_script :=
  unfold main, main_fetch, main_download, main_predict, main_store, read_df, lift,
    persist_predictions, predict, download_file_from_s3, probe,
    download_handler, upload_file_to_s3, upload_handler, read_csv, to_csv,
    s3_download_file, getsize, os_path_isfile, call, print, log, try_except,
    bind, raise, ret in *.

(** Bring an equation [(h ++ [a]) ++ [b] = h ++ new] to [new = [a; b]]. *)
Ltac solve_new :=
  repeat match goal with
  | H : _ = hist ?st ++ ?new |- _ =>
      simpl in H; rewrite <- ?app_assoc in H; simpl in H;
      first [ apply app_inv_head in H
            | rewrite <- (app_nil_r (hist st)) in H at 1; apply app_inv_head in H ];
      subst new
  end.

Lemma eqb_404 (code : string) : String.eqb code "404" = true -> code = "404".
Proof. apply String.eqb_eq. Qed.

Lemma count_app (p : Event -> bool) (l k : list Event) :
  count p (l ++ k) = count p l + count p k.
Proof. unfold count. by rewrite List.filter_app, length_app. Qed.

(** The download function only appends to the history, and what it appends
    are requests to the storage client, local file operations and printed
    lines: nothing of the model, nothing of the persist step. *)
Lemma download_event_kinds (env : Env)
    (bucket_name object_key file_path endpoint_url key_id secret : option string)
    (region : string) (st st' : State) (r : res bool) :
  download_file_from_s3 env bucket_name object_key file_path endpoint_url key_id
    secret region st = (st', r) ->
  exists new,
    hist st' = hist st ++ new
    /\ count is_prediction new = 0 /\ count is_persist new = 0.
Proof.
  intros Hrun. unfold_script.
  repeat (case_match; simpl in *; simplify_eq).
  all: first [ by exists []; rewrite app_nil_r
             | eexists; split; [rewrite <- ?app_assoc; reflexivity|];
               split; reflexivity ].
Qed.

(** The upload function always returns a boolean; it leaves the local files
    alone, its only transfer request carries the resolved key, and it returns
    [True] exactly when that request succeeded. *)
Lemma upload_outcome (env : Env) (file_path : string)
    (bucket_name object_key endpoint_url key_id secret : option string)
    (region : string) (st : State) :
  exists st' b new,
    upload_file_to_s3 env file_path bucket_name object_key endpoint_url key_id
      secret region st = (st', Ret b)
    /\ hist st' = hist st ++ new
    /\ fs st' = fs st
    /\ count is_local_write new = 0
    /\ (forall ev, In ev new -> is_upload ev = true ->
          exists r, ev = EUploadFile file_path bucket_name
                           (default (path_name file_path) object_key) r)
    /\ (b = true <->
        In (EUploadFile file_path bucket_name
              (default (path_name file_path) object_key) (Ret tt)) new).
Proof.
  unfold_script.
  repeat (case_match; simpl in *; simplify_eq).
  all: repeat match goal with u : unit |- _ => destruct u end.
  all: do 3 eexists; split; [reflexivity|]; simpl.
  all: split; [rewrite <- ?app_assoc; reflexivity|]; simpl.
  all: split; [reflexivity|]; split; [reflexivity|]; split.
  all: try (intros ev Hin Hup; simpl in Hin;
            repeat (destruct Hin as [<-|Hin]; [try discriminate Hup; eauto|]);
            destruct Hin).
  all: split; [try discriminate|simpl; intros Hin].
  all: try reflexivity.
  all: try (intros _; simpl; tauto).
  all: repeat (destruct Hin as [Hin|Hin]; [discriminate Hin|]); try destruct Hin.
Qed.

(** ** The sample world runs *)

Example path_name_staging : path_name "/tmp/predictions.csv" = "predictions.csv".
Proof. reflexivity. Qed.

Example path_name_trailing : path_name "data/./test.csv/" = "test.csv".
Proof. reflexivity. Qed.

Example path_name_root : path_name "/" = "".
Proof. reflexivity. Qed.

Example sample_run_output :
  fs ((main Sample.fine (start ∅)).1) !! "/tmp/predictions.csv"
  = Some ("PassengerId,predictions" +:+ Sample.newline +:+ "1,0" +:+ Sample.newline
          +:+ "2,1" +:+ Sample.newline +:+ "3,0" +:+ Sample.newline).
Proof. vm_compute. reflexivity. Qed.

Example failed_download_run_ends :
  (main Sample.absent (start ∅)).2
  = Raise (OtherError "Exception"
             "❌ Error during prediction: name 'df' is not defined").
Proof. vm_compute. reflexivity. Qed.

(** ** Properties of the pipeline *)

(** C1, as stated, fails for a model that answers with a Series.  The
    constructor matches a Series with the identifiers by index label, not by
    position: three predictions returned as 10, 20, 30 under the labels 2,
    1, 0 put the third prediction beside the first identifier, and three
    predictions under the labels 10, 20, 30 give a table of six rows. *)
Lemma series_answer_pairs_by_label :
  let reversed := Labelled [(2%Z, VInt 10); (1%Z, VInt 20); (0%Z, VInt 30)] in
  let shifted := Labelled [(10%Z, VInt 0); (20%Z, VInt 1); (30%Z, VInt 0)] in
  frame_ok Sample.input
  /\ nrows Sample.input = 3
  /\ get_column Sample.input "PassengerId" = Some [VInt 1; VInt 2; VInt 3]
  /\ length (answer_values reversed) = 3
  /\ length (answer_values shifted) = 3
  /\ answer_values reversed !! 0 = Some (VInt 10)
  /\ (exists out,
        build_preds_df Sample.input reversed = Ret out
        /\ frame_row out 0
           = [("PassengerId", Some (VInt 1)); ("predictions", Some (VInt 30))])
  /\ (exists out,
        build_preds_df Sample.input shifted = Ret out
        /\ nrows out = 6
        /\ get_column out "PassengerId"
           = Some [VInt 1; VInt 2; VInt 3; VNaN; VNaN; VNaN]).
Proof.
  intros reversed shifted.
  split; [repeat constructor|].
  do 5 (split; [reflexivity|]).
  split; eexists; (split; [vm_compute; reflexivity|]); repeat split.
Qed.

Example reversed_series_run_output :
  fs ((main Faults.reversed_series (start ∅)).1) !! "/tmp/predictions.csv"
  = Some ("PassengerId,predictions" +:+ Sample.newline +:+ "1,30" +:+ Sample.newline
          +:+ "2,20" +:+ Sample.newline +:+ "3,10" +:+ Sample.newline).
Proof. vm_compute. reflexivity. Qed.

(** C1, amended: for an input table of [n] rows that has the identifier
    column, and a model answer of [n] predictions that is a positional
    sequence or a Series under the input's own labels, the assembled table
    has exactly [n] rows; its identifier column is the input's, cell for
    cell and in the same order; its prediction column is the model's answer;
    and row [i] pairs identifier [i] with prediction [i].  This table is the
    one the driver prints and hands to the persist step. *)
Theorem assembled_table_rows (df : DataFrame) (ids : list value)
    (predictions : answer) (n : nat) :
  frame_ok df ->
  nrows df = n ->
  get_column df "PassengerId" = Some ids ->
  length (answer_values predictions) = n ->
  follows_input n predictions ->
  exists out,
    build_preds_df df predictions = Ret out
    /\ nrows out = n
    /\ frame_ok out
    /\ get_column out "PassengerId" = Some ids
    /\ get_column out "predictions" = Some (answer_values predictions)
    /\ (forall i, i < n ->
          exists id p,
            ids !! i = Some id /\ answer_values predictions !! i = Some p
            /\ frame_row out i = [("PassengerId", Some id); ("predictions", Some p)])
    /\ (forall (env : Env) (st : State),
          main_store env (Some df) predictions st
          = (print "Predictions:" ;;
             log (EPrintFrame (frame_head out)) ;;
             persist_predictions env out ;;
             ret tt) st).
Proof.
  intros Hok Hrows Hids Hlen Hfollows.
  assert (Hidlen : length ids = n).
  { unfold get_column in Hids. unfold frame_ok in Hok. rewrite Hrows in Hok.
    clear Hrows. induction (columns df) as [|[name vs] cols IH]; [discriminate|].
    simpl in Hids. apply Forall_cons in Hok as [Hhd Htl].
    destruct (String.eqb name "PassengerId"); [|by apply IH].
    by injection Hids as <-. }
  assert (Hbuild : build_preds_df df predictions
                   = Ret (mkFrame n [("PassengerId", ids);
                                     ("predictions", answer_values predictions)])).
  { unfold build_preds_df. rewrite Hids, Hrows.
    destruct predictions as [cells|items]; simpl in *.
    - by rewrite Hlen, Nat.eqb_refl.
    - by rewrite decide_True. }
  exists (mkFrame n [("PassengerId", ids); ("predictions", answer_values predictions)]).
  split; [exact Hbuild|]. repeat split.
  - unfold frame_ok. simpl. by repeat constructor.
  - intros i Hi.
    destruct (lookup_lt_is_Some_2 ids i) as [id Hid]; [lia|].
    destruct (lookup_lt_is_Some_2 (answer_values predictions) i) as [p Hp]; [lia|].
    exists id, p. unfold frame_row. simpl. by rewrite Hid, Hp.
  - intros env st. unfold main_store, read_df, lift, bind, ret.
    by rewrite Hbuild.
Qed.

Lemma assembled_table_rows_witness :
  let series := Labelled [(0%Z, VInt 0); (1%Z, VInt 1); (2%Z, VInt 0)] in
  frame_ok Sample.input
  /\ nrows Sample.input = 3
  /\ get_column Sample.input "PassengerId" = Some [VInt 1; VInt 2; VInt 3]
  /\ length (answer_values series) = 3
  /\ follows_input 3 series
  /\ exists out,
       build_preds_df Sample.input series = Ret out
       /\ nrows out = 3
       /\ get_column out "PassengerId" = Some [VInt 1; VInt 2; VInt 3]
       /\ get_column out "predictions" = Some [VInt 0; VInt 1; VInt 0].
Proof.
  intros series.
  assert (Hok : frame_ok Sample.input) by (repeat constructor).
  split; [exact Hok|]. do 4 (split; [reflexivity|]).
  destruct (assembled_table_rows Sample.input [VInt 1; VInt 2; VInt 3]
              series 3 Hok eq_refl eq_refl eq_refl eq_refl)
    as (out & Hbuild & Hrows & _ & Hids & Hpreds & _).
  exists out. repeat split; assumption.
Defined.

(** C2: when the download step of the driver returns [False], the run ends
    with an exception.  Its history holds no call to the model loader or the
    model and no action of the persist step (no staging of the output, no
    upload request); after the download returned, the run neither reaches
    the storage client nor writes locally. *)
Theorem failed_download_stops_run (env : Env) (files : gmap string string)
    (st1 : State) :
  main_download env (start files) = (st1, Ret false) ->
  exists st' e after,
    main env (start files) = (st', Raise e)
    /\ count is_prediction (hist st') = 0
    /\ count is_persist (hist st') = 0
    /\ hist st' = hist st1 ++ after
    /\ count is_s3_event after = 0
    /\ count is_local_write after = 0.
Proof.
  intros Hdown. pose proof Hdown as Hrun. unfold main_download in Hrun.
  destruct (download_event_kinds _ _ _ _ _ _ _ _ _ _ _ Hrun)
    as (new & Hnew & Hpred & Hpers).
  simpl in Hnew. subst new.
  unfold main, main_fetch, main_predict, main_store, read_df, try_except, bind,
    call, print, log, raise, ret.
  rewrite Hdown. simpl.
  destruct (set_tracking_uri env _ _); simpl;
    [destruct (get_tracking_uri env _); simpl|].
  all: rewrite <- ?app_assoc; simpl.
  all: do 3 eexists; split; [reflexivity|]; simpl.
  all: split; [by rewrite count_app, Hpred|].
  all: split; [by rewrite count_app, Hpers|].
  all: split; [reflexivity|].
  all: split; reflexivity.
Qed.

Lemma failed_download_stops_run_witness :
  let st1 := (main_download Sample.absent (start ∅)).1 in
  main_download Sample.absent (start ∅) = (st1, Ret false)
  /\ exists st' e after,
       main Sample.absent (start ∅) = (st', Raise e)
       /\ count is_prediction (hist st') = 0
       /\ count is_persist (hist st') = 0
       /\ hist st' = hist st1 ++ after
       /\ count is_s3_event after = 0
       /\ count is_local_write after = 0.
Proof.
  intros st1.
  assert (Hdown : main_download Sample.absent (start ∅) = (st1, Ret false))
    by (vm_compute; reflexivity).
  split; [exact Hdown|].
  exact (failed_download_stops_run Sample.absent ∅ st1 Hdown).
Defined.

(** C3, as stated, fails: with a probe refused by a 403 client error the
    download call returns [False]; no exception leaves the call. *)
Lemma download_probe_error_returns_false :
  let run := download_file_from_s3 Sample.forbidden (Some "models")
               (Some "data/test.csv") (Some "/tmp/test.csv") None None None
               "us-east-1" (start ∅) in
  In (EHeadObject (Some "models") (Some "data/test.csv")
        (Raise (ClientError "403" "Forbidden"))) (hist run.1)
  /\ run.2 = Ret false
  /\ (forall e, run.2 <> Raise e).
Proof.
  vm_compute. split; [right; left; reflexivity|]. split; [reflexivity|].
  intros e H. discriminate H.
Qed.

(** C3, amended: when the metadata probe fails with an error other than
    not-found, the download call returns [False] without a transfer request
    and without a local write.  A client error is re-raised inside the call
    as a generic exception, which the call's own last handler catches: the
    last line printed is the "Unexpected error" diagnostic carrying the
    wrapped message. *)
Theorem download_probe_error_caught (env : Env)
    (bucket_name object_key file_path endpoint_url key_id secret : option string)
    (region : string) (st st' : State) (r : res bool) (new : list Event)
    (b k : option string) (e : exn) :
  download_file_from_s3 env bucket_name object_key file_path endpoint_url key_id
    secret region st = (st', r) ->
  hist st' = hist st ++ new ->
  In (EHeadObject b k (Raise e)) new ->
  (forall msg, e <> ClientError "404" msg) ->
  r = Ret false
  /\ count is_transfer new = 0
  /\ count is_local_write new = 0
  /\ fs st' = fs st
  /\ (forall code msg, e = ClientError code msg ->
        List.last (printed new) ""
        = "❌ Unexpected error: Error checking object existence").
Proof.
  intros Hrun Hnew Hin Hnot404. unfold_script.
  repeat (case_match; simpl in *; simplify_eq); solve_new; simpl in Hin.
  all: try (intuition discriminate).
  all: repeat match goal with
       | H : _ \/ _ |- _ => destruct H
       | H : False |- _ => destruct H
       | H : EHeadObject _ _ _ = EHeadObject _ _ _ |- _ => injection H as -> -> <-
       | H : _ = _ :> Event |- _ => discriminate H
       | H : String.eqb _ "404" = true |- _ => apply eqb_404 in H; subst
       end.
  all: try (exfalso; eapply Hnot404; reflexivity).
  all: repeat split; try reflexivity; try (intros; discriminate).
Qed.

Lemma download_probe_error_caught_witness :
  let run := download_file_from_s3 Sample.forbidden (Some "models")
               (Some "data/test.csv") (Some "/tmp/test.csv") None None None
               "us-east-1" (start ∅) in
  In (EHeadObject (Some "models") (Some "data/test.csv")
        (Raise (ClientError "403" "Forbidden"))) (hist run.1)
  /\ run.2 = Ret false
  /\ count is_transfer (hist run.1) = 0
  /\ count is_local_write (hist run.1) = 0
  /\ fs run.1 = fs (start ∅)
  /\ (forall code msg, ClientError "403" "Forbidden" = ClientError code msg ->
        List.last (printed (hist run.1)) ""
        = "❌ Unexpected error: Error checking object existence").
Proof.
  split.
  - vm_compute. right. left. reflexivity.
  - eapply (download_probe_error_caught Sample.forbidden (Some "models")
              (Some "data/test.csv") (Some "/tmp/test.csv") None None None
              "us-east-1" (start ∅)).
    + vm_compute. reflexivity.
    + reflexivity.
    + vm_compute. right. left. reflexivity.
    + intros msg H. discriminate H.
Defined.

(** C4: an upload of a path that is not an existing regular file returns
    [False]; all it does is print the not-found line: no client is
    constructed and no request is made. *)
Theorem upload_missing_file_no_client (env : Env) (file_path : string)
    (bucket_name object_key endpoint_url key_id secret : option string)
    (region : string) (st : State) :
  isfile st file_path = false ->
  exists st',
    upload_file_to_s3 env file_path bucket_name object_key endpoint_url key_id
      secret region st = (st', Ret false)
    /\ hist st' = hist st ++ [EPrint ("Error: File '" +:+ file_path +:+ "' not found.")]
    /\ fs st' = fs st
    /\ count is_s3_event (hist st') = count is_s3_event (hist st).
Proof.
  intros Hmissing. unfold_script. rewrite Hmissing. simpl.
  eexists. split; [reflexivity|]. simpl. repeat split.
  unfold count. rewrite List.filter_app. simpl. by rewrite app_nil_r.
Qed.

Lemma upload_missing_file_no_client_witness :
  isfile (start ∅) "/tmp/predictions.csv" = false
  /\ exists st',
       upload_file_to_s3 Sample.fine "/tmp/predictions.csv" (Some "models")
         (Some "data/predictions.csv") None None None "us-east-1" (start ∅)
       = (st', Ret false)
       /\ hist st' = hist (start ∅)
                     ++ [EPrint ("Error: File '" +:+ "/tmp/predictions.csv"
                                 +:+ "' not found.")]
       /\ fs st' = fs (start ∅)
       /\ count is_s3_event (hist st') = count is_s3_event (hist (start ∅)).
Proof.
  split.
  - vm_compute. reflexivity.
  - apply (upload_missing_file_no_client Sample.fine "/tmp/predictions.csv"
             (Some "models") (Some "data/predictions.csv") None None None
             "us-east-1" (start ∅)).
    vm_compute. reflexivity.
Defined.

(** C5: a successful upload with the object key omitted sends exactly one
    transfer request, under the base name of the local path, and the URL it
    reports is built from that key: the bucket/region form without an
    endpoint, endpoint/bucket/key with one. *)
Theorem upload_default_key_url (env : Env) (local_path : string)
    (bucket_name endpoint_url key_id secret : option string) (region : string)
    (st st' : State) (new : list Event) :
  upload_file_to_s3 env local_path bucket_name None endpoint_url key_id secret
    region st = (st', Ret true) ->
  hist st' = hist st ++ new ->
  List.filter is_upload new
  = [EUploadFile local_path bucket_name (path_name local_path) (Ret tt)]
  /\ List.last (printed new) ""
     = "📁 File URL: " +:+
       match endpoint_url with
       | None => "https://" +:+ py_str bucket_name +:+ ".s3." +:+ region
                 +:+ ".amazonaws.com/" +:+ path_name local_path
       | Some endpoint => endpoint +:+ "/" +:+ py_str bucket_name +:+ "/"
                          +:+ path_name local_path
       end.
Proof.
  intros Hrun Hnew. unfold_script.
  repeat (case_match; simpl in *; simplify_eq); solve_new.
  all: repeat match goal with u : unit |- _ => destruct u end.
  all: split; reflexivity.
Qed.

Lemma upload_default_key_url_witness :
  let st := mkState {["/tmp/out/predictions.csv" := "PassengerId,predictions"]} [] in
  let aws := upload_file_to_s3 Sample.fine "/tmp/out/predictions.csv"
               (Some "models") None None None None "eu-west-1" st in
  let minio := upload_file_to_s3 Sample.fine "/tmp/out/predictions.csv"
                 (Some "models") None (Some "http://minio:9000") None None
                 "eu-west-1" st in
  (aws.2 = Ret true
   /\ List.filter is_upload (hist aws.1)
      = [EUploadFile "/tmp/out/predictions.csv" (Some "models") "predictions.csv" (Ret tt)]
   /\ List.last (printed (hist aws.1)) ""
      = "📁 File URL: https://models.s3.eu-west-1.amazonaws.com/predictions.csv")
  /\ (minio.2 = Ret true
      /\ List.filter is_upload (hist minio.1)
         = [EUploadFile "/tmp/out/predictions.csv" (Some "models") "predictions.csv" (Ret tt)]
      /\ List.last (printed (hist minio.1)) ""
         = "📁 File URL: http://minio:9000/models/predictions.csv").
Proof.
  intros st aws minio. split; (split; [vm_compute; reflexivity|]).
  - apply (upload_default_key_url Sample.fine "/tmp/out/predictions.csv"
             (Some "models") None None None "eu-west-1" st aws.1 (hist aws.1));
      vm_compute; reflexivity.
  - apply (upload_default_key_url Sample.fine "/tmp/out/predictions.csv"
             (Some "models") (Some "http://minio:9000") None None "eu-west-1" st
             minio.1 (hist minio.1));
      vm_compute; reflexivity.
Defined.

(** C6: when the metadata probe of a download call is answered with the
    not-found code, the call returns [False] after exactly one probe, with no
    transfer request and no local write (no directory created, no file
    stored). *)
Theorem download_absent_object_one_probe (env : Env)
    (bucket_name object_key file_path endpoint_url key_id secret : option string)
    (region : string) (st st' : State) (r : res bool) (new : list Event)
    (b k : option string) (msg : string) :
  download_file_from_s3 env bucket_name object_key file_path endpoint_url key_id
    secret region st = (st', r) ->
  hist st' = hist st ++ new ->
  In (EHeadObject b k (Raise (ClientError "404" msg))) new ->
  r = Ret false
  /\ count is_probe new = 1
  /\ count is_transfer new = 0
  /\ count is_local_write new = 0
  /\ fs st' = fs st.
Proof.
  intros Hrun Hnew Hin. unfold_script.
  repeat (case_match; simpl in *; simplify_eq); solve_new; simpl in Hin.
  all: try (intuition discriminate).
Qed.

Lemma download_absent_object_one_probe_witness :
  let run := download_file_from_s3 Sample.absent (Some "models")
               (Some "data/test.csv") (Some "/tmp/test.csv") None None None
               "us-east-1" (start ∅) in
  In (EHeadObject (Some "models") (Some "data/test.csv")
        (Raise (ClientError "404" "Not Found"))) (hist run.1)
  /\ run.2 = Ret false
  /\ count is_probe (hist run.1) = 1
  /\ count is_transfer (hist run.1) = 0
  /\ count is_local_write (hist run.1) = 0
  /\ fs run.1 = fs (start ∅).
Proof.
  split.
  - vm_compute. right. left. reflexivity.
  - eapply (download_absent_object_one_probe Sample.absent (Some "models")
              (Some "data/test.csv") (Some "/tmp/test.csv") None None None
              "us-east-1" (start ∅)).
    + vm_compute. reflexivity.
    + reflexivity.
    + vm_compute. right. left. reflexivity.
Defined.

(** C7: when a request of the storage client (its construction, the probe
    or the transfer) raises the missing-credentials error, the upload call
    and the download call alike return [False], and what they print ends
    with the five-line diagnostic naming environment variables, the
    credentials file and instance roles. *)
Theorem missing_credentials_return_false (env : Env)
    (bucket_name object_key endpoint_url key_id secret : option string)
    (region : string) (st st' : State) (r : res bool) (new : list Event) :
  hist st' = hist st ++ new ->
  existsb signals_no_credentials new = true ->
  (forall local_path : string,
     upload_file_to_s3 env local_path bucket_name object_key endpoint_url key_id
       secret region st = (st', r) ->
     r = Ret false /\ exists before, printed new = before ++ credential_help)
  /\ (forall local_path : option string,
       download_file_from_s3 env bucket_name object_key local_path endpoint_url
         key_id secret region st = (st', r) ->
       r = Ret false /\ exists before, printed new = before ++ credential_help).
Proof.
  intros Hnew Hsig. split; intros local_path Hrun; unfold_script.
  all: repeat (case_match; simpl in *; simplify_eq); solve_new; simpl in Hsig.
  all: try discriminate Hsig.
  all: split; [reflexivity|].
  all: first [ by exists [] | by eexists [_] | by eexists [_; _] ].
Qed.

Lemma missing_credentials_return_false_witness :
  let st := mkState {["/tmp/predictions.csv" := "PassengerId,predictions"]} [] in
  let up := upload_file_to_s3 Sample.no_credentials "/tmp/predictions.csv"
              (Some "models") None None None None "us-east-1" st in
  let down := download_file_from_s3 Sample.no_credentials (Some "models")
                (Some "data/test.csv") None None None None "us-east-1" st in
  (existsb signals_no_credentials (hist up.1) = true
   /\ up.2 = Ret false
   /\ exists before, printed (hist up.1) = before ++ credential_help)
  /\ (existsb signals_no_credentials (hist down.1) = true
      /\ down.2 = Ret false
      /\ exists before, printed (hist down.1) = before ++ credential_help).
Proof.
  intros st up down. split; (split; [vm_compute; reflexivity|]).
  - apply (proj1 (missing_credentials_return_false Sample.no_credentials
                    (Some "models") None None None None "us-east-1" st up.1 up.2
                    (hist up.1) eq_refl eq_refl) "/tmp/predictions.csv").
    vm_compute. reflexivity.
  - apply (proj2 (missing_credentials_return_false Sample.no_credentials
                    (Some "models") (Some "data/test.csv") None None None
                    "us-east-1" st down.1 down.2 (hist down.1) eq_refl eq_refl)
                 None).
    vm_compute. reflexivity.
Defined.

(** C8: once the fetch phase has bound the input table, any exception raised
    by [predict] ends the run at once: the run's outcome is a fresh exception
    whose message is the prediction-error prefix followed by the text of the
    original one, and the final state is the state in which [predict]
    failed, so nothing runs afterwards.  A model reference that cannot be
    resolved is one such failure. *)
Theorem prediction_failure_is_fatal (env : Env) (st0 st1 : State)
    (df : DataFrame) :
  main_fetch env st0 = (st1, Ret (Some df)) ->
  let announced := mkState (fs st1) (hist st1 ++ [EPrint "Making predictions..."]) in
  (forall (st2 : State) (e : exn),
     predict env df announced = (st2, Raise e) ->
     main env st0
     = (st2, Raise (OtherError "Exception"
                      ("❌ Error during prediction: " +:+ exn_str e))))
  /\ (forall e : exn,
        load_model env announced (getenv env "MLFLOW_LOGGED_MODEL") = Raise e ->
        main env st0
        = (mkState (fs st1)
             (hist announced
              ++ [ELoadModel (getenv env "MLFLOW_LOGGED_MODEL") (Raise e)]),
           Raise (OtherError "Exception"
                    ("❌ Error during prediction: " +:+ exn_str e)))).
Proof.
  intros Hfetch announced.
  assert (Hmain : forall st2 e, predict env df announced = (st2, Raise e) ->
            main env st0
            = (st2, Raise (OtherError "Exception"
                             ("❌ Error during prediction: " +:+ exn_str e)))).
  { intros st2 e Hpredict. unfold main, bind. rewrite Hfetch.
    unfold main_predict, try_except, bind, print, log, read_df, ret. simpl.
    fold announced. by rewrite Hpredict. }
  split; [exact Hmain|].
  intros e Hload. apply Hmain.
  unfold predict, bind, call. by rewrite Hload.
Qed.

Lemma prediction_failure_is_fatal_witness :
  let st1 := (main_fetch Sample.broken_model (start ∅)).1 in
  let announced := mkState (fs st1) (hist st1 ++ [EPrint "Making predictions..."]) in
  let st2 := (predict Sample.broken_model Sample.input announced).1 in
  main_fetch Sample.broken_model (start ∅) = (st1, Ret (Some Sample.input))
  /\ predict Sample.broken_model Sample.input announced
     = (st2, Raise (OtherError "MlflowException" "model not available"))
  /\ main Sample.broken_model (start ∅)
     = (st2, Raise (OtherError "Exception"
                      ("❌ Error during prediction: " +:+ "model not available"))).
Proof.
  intros st1 announced st2.
  assert (Hfetch : main_fetch Sample.broken_model (start ∅)
                   = (st1, Ret (Some Sample.input))) by (vm_compute; reflexivity).
  assert (Hpredict : predict Sample.broken_model Sample.input announced
                     = (st2, Raise (OtherError "MlflowException" "model not available")))
    by (vm_compute; reflexivity).
  split; [exact Hfetch|]. split; [exact Hpredict|].
  exact (proj1 (prediction_failure_is_fatal Sample.broken_model (start ∅) st1
                  Sample.input Hfetch) st2 _ Hpredict).
Defined.




(** C10: whenever the persist step returns, or has reached the storage
    client at all, its first action was the successful write of the whole
    serialised table to /tmp/predictions.csv, nothing wrote locally
    afterwards, and the file still holds that serialisation in the final
    state, whatever the upload returned. *)
Theorem persist_stages_before_upload (env : Env) (df : DataFrame)
    (st st' : State) (r : res bool) (new : list Event) :
  persist_predictions env df st = (st', r) ->
  hist st' = hist st ++ new ->
  (exists b, r = Ret b) \/ existsb is_s3_event new = true ->
  fs st' !! "/tmp/predictions.csv" = Some (csv_text env df)
  /\ exists rest,
       new = EToCsv "/tmp/predictions.csv" df (Ret tt) :: rest
       /\ count is_local_write rest = 0.
Proof.
  intros Hrun Hnew Hattempt.
  unfold persist_predictions, to_csv, bind, ret in Hrun.
  destruct (csv_write env st "/tmp/predictions.csv") as [[]|e] eqn:Hwrite.
  - match type of Hrun with context [upload_file_to_s3 _ _ _ _ _ _ _ _ ?s] =>
      destruct (upload_outcome env "/tmp/predictions.csv"
                  (getenv env "S3_BUCKET_NAME") (Some "data/predictions.csv")
                  (getenv env "S3_ENDPOINT_URL") (getenv env "AWS_ACCESS_KEY_ID")
                  (getenv env "AWS_SECRET_ACCESS_KEY")
                  (getenv_or env "AWS_DEFAULT_REGION" "us-east-1") s)
        as (st2 & b & rest & Hup & Hhist & Hfs & Hquiet & _)
    end.
    rewrite Hup in Hrun. simplify_eq. simpl in *.
    rewrite Hfs, lookup_insert_eq. split; [reflexivity|].
    exists rest. split; [|assumption].
    rewrite Hhist, <- app_assoc in Hnew. by apply app_inv_head in Hnew.
  - simplify_eq. simpl in Hnew.
    apply app_inv_head in Hnew. subst new.
    destruct Hattempt as [[b Hb]|Hs3]; discriminate.
Qed.

Lemma persist_stages_before_upload_witness :
  let run := persist_predictions Sample.unconfigured Sample.input (start ∅) in
  run.2 = Ret false
  /\ fs run.1 !! "/tmp/predictions.csv" = Some (Sample.render Sample.input)
  /\ exists rest,
       hist run.1 = EToCsv "/tmp/predictions.csv" Sample.input (Ret tt) :: rest
       /\ count is_local_write rest = 0.
Proof.
  intros run.
  assert (Hret : run.2 = Ret false) by (vm_compute; reflexivity).
  split; [exact Hret|].
  apply (persist_stages_before_upload Sample.unconfigured Sample.input (start ∅)
           run.1 run.2 (hist run.1)).
  - vm_compute. reflexivity.
  - reflexivity.
  - left. exists false. exact Hret.
Defined.

(** ** Further properties of the transfer client *)

(** X1: an upload call never raises: it returns a boolean in every world.  It
    leaves the local files as they are, never probes, and constructs at most
    one client and sends at most one transfer request (no retry). *)
Theorem upload_never_raises (env : Env) (file_path : string)
    (bucket_name object_key endpoint_url key_id secret : option string)
    (region : string) (st : State) :
  exists st' ok new,
    upload_file_to_s3 env file_path bucket_name object_key endpoint_url key_id
      secret region st = (st', Ret ok)
    /\ hist st' = hist st ++ new
    /\ fs st' = fs st
    /\ count is_client new <= 1
    /\ count is_upload new <= 1
    /\ count is_probe new = 0
    /\ count is_local_write new = 0.
Proof.
  unfold_script.
  repeat (case_match; simpl in *; simplify_eq).
  all: do 3 eexists; split; [reflexivity|]; simpl.
  all: split; [rewrite <- ?app_assoc; reflexivity|]; simpl.
  all: split; [reflexivity|]; unfold count; simpl; repeat split; lia.
Qed.

(** X2: a download call raises only when neither a local path nor an object
    key is given, and then before anything is done; in every other case it
    returns a boolean. *)
Theorem download_raises_only_without_path (env : Env)
    (bucket_name object_key file_path endpoint_url key_id secret : option string)
    (region : string) (st st' : State) (r : res bool) :
  download_file_from_s3 env bucket_name object_key file_path endpoint_url key_id
    secret region st = (st', r) ->
  ((exists e, r = Raise e) <-> file_path = None /\ object_key = None)
  /\ ((exists e, r = Raise e) -> st' = st).
Proof.
  intros Hrun. unfold_script.
  repeat (case_match; simpl in *; simplify_eq).
  all: split; [split|]; try (intros [e He]; discriminate He).
  all: try (intros [? ?]; discriminate).
  all: try (intros _; split; reflexivity).
  all: try (intros; eexists; reflexivity).
  all: try reflexivity.
Qed.

Lemma download_raises_only_without_path_witness :
  let run := download_file_from_s3 Sample.fine (Some "models") None None None
               None None "us-east-1" (start ∅) in
  (exists e, run.2 = Raise e) /\ run.1 = start ∅.
Proof.
  intros run.
  destruct (download_raises_only_without_path Sample.fine (Some "models") None
              None None None None "us-east-1" (start ∅) run.1 run.2)
    as [Hiff Hsame].
  - vm_compute. reflexivity.
  - assert (Hraise : exists e, run.2 = Raise e) by (apply Hiff; split; reflexivity).
    split; [exact Hraise | exact (Hsame Hraise)].
Defined.

(** X3: a download call constructs at most one client, probes at most once
    and requests at most one transfer (no retry); it never sends an upload
    request and never touches the registry or the model. *)
Theorem download_no_retry (env : Env)
    (bucket_name object_key file_path endpoint_url key_id secret : option string)
    (region : string) (st st' : State) (r : res bool) (new : list Event) :
  download_file_from_s3 env bucket_name object_key file_path endpoint_url key_id
    secret region st = (st', r) ->
  hist st' = hist st ++ new ->
  count is_client new <= 1
  /\ count is_probe new <= 1
  /\ count is_download new <= 1
  /\ count is_upload new = 0
  /\ count is_tracking new = 0
  /\ count is_prediction new = 0.
Proof.
  intros Hrun Hnew. unfold_script.
  repeat (case_match; simpl in *; simplify_eq); solve_new.
  all: unfold count; simpl; repeat split; lia.
Qed.

Lemma download_no_retry_witness :
  let run := download_file_from_s3 Sample.fine (Some "models")
               (Some "data/test.csv") (Some "/tmp/test.csv") None None None
               "us-east-1" (start ∅) in
  count is_client (hist run.1) <= 1
  /\ count is_probe (hist run.1) <= 1
  /\ count is_download (hist run.1) <= 1
  /\ count is_upload (hist run.1) = 0
  /\ count is_tracking (hist run.1) = 0
  /\ count is_prediction (hist run.1) = 0.
Proof.
  intros run.
  apply (download_no_retry Sample.fine (Some "models") (Some "data/test.csv")
           (Some "/tmp/test.csv") None None None "us-east-1" (start ∅) run.1 run.2).
  - vm_compute. reflexivity.
  - reflexivity.
Defined.

(** X4: a download call to a given local path returns [True] only after a
    successful probe and a successful transfer of the same object, and then
    the local path holds the transferred content; when it returns [False],
    no transfer request succeeded. *)
Theorem download_true_iff_transferred (env : Env)
    (bucket_name object_key endpoint_url key_id secret : option string)
    (path region : string) (st st' : State) (r : res bool) (new : list Event) :
  download_file_from_s3 env bucket_name object_key (Some path) endpoint_url
    key_id secret region st = (st', r) ->
  hist st' = hist st ++ new ->
  (r = Ret true ->
   exists size content,
     In (EHeadObject bucket_name object_key (Ret size)) new
     /\ In (EDownloadFile bucket_name object_key path (Ret content)) new
     /\ fs st' = <[path := content]> (fs st))
  /\ (r = Ret false ->
      forall ev, In ev new -> is_download ev = true -> is_Some (event_error ev)).
Proof.
  intros Hrun Hnew. unfold_script.
  repeat (case_match; simpl in *; simplify_eq); solve_new.
  all: split; [intros Hr | intros Hr ev Hin Hdl]; try discriminate Hr.
  all: try (do 2 eexists; split; [|split]; [| |reflexivity]; simpl; tauto).
  all: simpl in Hin;
       repeat (destruct Hin as [<-|Hin]; [try discriminate Hdl; simpl; eauto|]);
       try destruct Hin.
  all: repeat match goal with
       | H : isfile _ _ = false |- _ =>
           unfold isfile in H; simpl in H; rewrite lookup_insert_eq in H
       | H : <[_:=_]> _ !! _ = None |- _ => rewrite lookup_insert_eq in H
       end; try discriminate.
  all: try (exfalso; match goal with H : bool_decide _ = false |- _ =>
             apply bool_decide_eq_false in H; apply H; eauto end).
Qed.

Lemma download_true_iff_transferred_witness :
  let run := download_file_from_s3 Sample.fine (Some "models")
               (Some "data/test.csv") (Some "/tmp/test.csv") None None None
               "us-east-1" (start ∅) in
  run.2 = Ret true
  /\ exists size content,
       In (EHeadObject (Some "models") (Some "data/test.csv") (Ret size))
          (hist run.1)
       /\ In (EDownloadFile (Some "models") (Some "data/test.csv")
                "/tmp/test.csv" (Ret content)) (hist run.1)
       /\ fs run.1 = <["/tmp/test.csv" := content]> (fs (start ∅)).
Proof.
  intros run.
  assert (Hok : run.2 = Ret true) by (vm_compute; reflexivity).
  split; [exact Hok|].
  refine (proj1 (download_true_iff_transferred Sample.fine (Some "models")
                   (Some "data/test.csv") None None None "/tmp/test.csv"
                   "us-east-1" (start ∅) run.1 run.2 (hist run.1) _ _) Hok).
  - vm_compute. reflexivity.
  - reflexivity.
Defined.

Lemma split_on_no_slash (s piece : string) :
  In piece (split_on "/"%char s) -> has_slash piece = false.
Proof.
  revert piece. induction s as [|c rest IH]; intros piece Hin; simpl in Hin.
  - destruct Hin as [<-|[]]. reflexivity.
  - destruct (Ascii.eqb c "/"%char) eqn:Hc.
    + destruct Hin as [<-|Hin]; [reflexivity|by apply IH].
    + destruct (split_on "/"%char rest) as [|first others].
      * destruct Hin as [<-|[]]. simpl. by rewrite Hc.
      * destruct Hin as [<-|Hin].
        -- simpl. rewrite Hc. apply IH. by left.
        -- apply IH. by right.
Qed.

Lemma last_in_or_default {A} (l : list A) (d : A) :
  List.last l d = d \/ In (List.last l d) l.
Proof.
  induction l as [|x l IH]; [by left|].
  destruct l as [|y l]; [right; by left|].
  destruct IH as [IH|IH].
  - change (List.last (x :: y :: l) d) with (List.last (y :: l) d).
    rewrite IH. by left.
  - right. right. exact IH.
Qed.

Lemma path_name_no_slash (p : string) : has_slash (path_name p) = false.
Proof.
  unfold path_name.
  destruct (last_in_or_default
              (List.filter is_path_part (split_on "/"%char p)) "") as [->|Hin].
  - reflexivity.
  - apply List.filter_In in Hin as [Hin _]. by apply (split_on_no_slash p).
Qed.



(** X6: a download call requests the transfer only directly after the
    parent directory of the destination was created, and only after the
    probe of the same object succeeded. *)
Theorem download_transfer_after_mkdir (env : Env)
    (bucket_name object_key file_path endpoint_url key_id secret : option string)
    (region : string) (st st' : State) (r : res bool) (new : list Event)
    (b k : option string) (path : string) (answer : res string) :
  download_file_from_s3 env bucket_name object_key file_path endpoint_url key_id
    secret region st = (st', r) ->
  hist st' = hist st ++ new ->
  In (EDownloadFile b k path answer) new ->
  exists before after size,
    new = before ++ EMkdirParent path (Ret tt) :: EDownloadFile b k path answer
                 :: after
    /\ In (EHeadObject b k (Ret size)) before
    /\ count is_local_write before = 0.
Proof.
  intros Hrun Hnew Hin. unfold_script.
  repeat (case_match; simpl in *; simplify_eq); solve_new; simpl in Hin.
  all: repeat match goal with u : unit |- _ => destruct u end.
  all: repeat (destruct Hin as [Hin|Hin]; [try discriminate Hin|]);
       try match goal with H : False |- _ => destruct H end.
  all: injection Hin as <- <- <- <-.
  all: eexists [_; _; _], _, _; split; [reflexivity|]; split;
       [simpl; eauto | reflexivity].
Qed.

Lemma download_transfer_after_mkdir_witness :
  let run := download_file_from_s3 Faults.no_bucket (Some "models")
               (Some "data/test.csv") (Some "/tmp/in/test.csv") None None None
               "us-east-1" (start ∅) in
  let refused := Raise (ClientError "NoSuchBucket"
                          "The specified bucket does not exist") in
  exists before after size,
    hist run.1
    = before ++ EMkdirParent "/tmp/in/test.csv" (Ret tt)
             :: EDownloadFile (Some "models") (Some "data/test.csv")
                  "/tmp/in/test.csv" refused :: after
    /\ In (EHeadObject (Some "models") (Some "data/test.csv") (Ret size)) before
    /\ count is_local_write before = 0.
Proof.
  intros run refused.
  apply (download_transfer_after_mkdir Faults.no_bucket (Some "models")
           (Some "data/test.csv") (Some "/tmp/in/test.csv") None None None
           "us-east-1" (start ∅) run.1 run.2 (hist run.1)).
  - vm_compute. reflexivity.
  - reflexivity.
  - vm_compute. tauto.
Defined.

Ltac pick_event Hin Herr :=
  simpl in Hin;
  repeat (destruct Hin as [<-|Hin];
          [simpl in Herr; try discriminate Herr; try injection Herr as -> ->|]);
  try match goal with H : False |- _ => destruct H end.

Ltac settle_codes :=
  repeat match goal with
  | H : String.eqb _ _ = true |- _ => apply String.eqb_eq in H; subst
  | H : String.eqb ?a ?a = false |- _ => rewrite String.eqb_refl in H; discriminate H
  end.

(** X7: when a request of an upload call is refused with a client error, the
    call returns [False] and its last printed line names the cause: the
    missing bucket for code NoSuchBucket, the permissions for AccessDenied,
    and the text of the error for every other code. *)
Theorem upload_client_error_diagnostic (env : Env) (file_path : string)
    (bucket_name object_key endpoint_url key_id secret : option string)
    (region : string) (st st' : State) (r : res bool) (new : list Event)
    (ev : Event) (code msg : string) :
  upload_file_to_s3 env file_path bucket_name object_key endpoint_url key_id
    secret region st = (st', r) ->
  hist st' = hist st ++ new ->
  In ev new ->
  event_error ev = Some (ClientError code msg) ->
  r = Ret false
  /\ (code = "NoSuchBucket" ->
      List.last (printed new) ""
      = "❌ Error: Bucket '" +:+ py_str bucket_name +:+ "' does not exist.")
  /\ (code = "AccessDenied" ->
      List.last (printed new) ""
      = "❌ Error: Access denied. Check your permissions for bucket '"
        +:+ py_str bucket_name +:+ "'.")
  /\ (code <> "NoSuchBucket" -> code <> "AccessDenied" ->
      List.last (printed new) "" = "❌ Error uploading file: " +:+ msg).
Proof.
  intros Hrun Hnew. unfold_script.
  repeat (case_match; simpl in *; simplify_eq); solve_new.
  all: intros Hin Herr; pick_event Hin Herr.
  all: split; [reflexivity|].
  all: repeat split; intros; subst; settle_codes; try reflexivity;
       try discriminate; try congruence.
Qed.

Lemma upload_client_error_diagnostic_witness :
  let st := mkState {["/tmp/predictions.csv" := "PassengerId,predictions"]} [] in
  let run := upload_file_to_s3 Faults.no_bucket "/tmp/predictions.csv"
               (Some "does-not-exist") None None None None "us-east-1" st in
  run.2 = Ret false
  /\ List.last (printed (hist run.1)) ""
     = "❌ Error: Bucket 'does-not-exist' does not exist.".
Proof.
  intros st run.
  destruct (upload_client_error_diagnostic Faults.no_bucket "/tmp/predictions.csv"
              (Some "does-not-exist") None None None None "us-east-1" st
              run.1 run.2 (hist run.1)
              (EUploadFile "/tmp/predictions.csv" (Some "does-not-exist")
                 "predictions.csv"
                 (Raise (ClientError "NoSuchBucket"
                           "The specified bucket does not exist")))
              "NoSuchBucket" "The specified bucket does not exist")
    as (Hret & Hbucket & _).
  - vm_compute. reflexivity.
  - reflexivity.
  - vm_compute. tauto.
  - reflexivity.
  - split; [exact Hret | exact (Hbucket eq_refl)].
Defined.

(** X8: when a request of a download call other than the probe is refused
    with a client error, the call returns [False] and its last printed line
    names the cause: the missing bucket for code NoSuchBucket, the
    permissions on bucket and object for AccessDenied, and the text of the
    error for every other code. *)
Theorem download_client_error_diagnostic (env : Env)
    (bucket_name object_key file_path endpoint_url key_id secret : option string)
    (region : string) (st st' : State) (r : res bool) (new : list Event)
    (ev : Event) (code msg : string) :
  download_file_from_s3 env bucket_name object_key file_path endpoint_url key_id
    secret region st = (st', r) ->
  hist st' = hist st ++ new ->
  In ev new ->
  is_probe ev = false ->
  event_error ev = Some (ClientError code msg) ->
  r = Ret false
  /\ (code = "NoSuchBucket" ->
      List.last (printed new) ""
      = "❌ Error: Bucket '" +:+ py_str bucket_name +:+ "' does not exist.")
  /\ (code = "AccessDenied" ->
      List.last (printed new) ""
      = "❌ Error: Access denied. Check your permissions for bucket '"
        +:+ py_str bucket_name +:+ "' and object '" +:+ py_str object_key +:+ "'.")
  /\ (code <> "NoSuchBucket" -> code <> "AccessDenied" ->
      List.last (printed new) "" = "❌ Error downloading file: " +:+ msg).
Proof.
  intros Hrun Hnew. unfold_script.
  repeat (case_match; simpl in *; simplify_eq); solve_new.
  all: intros Hin Hprobe Herr.
  all: simpl in Hin;
       repeat (destruct Hin as [<-|Hin];
               [simpl in Herr; try discriminate Herr; try discriminate Hprobe;
                try injection Herr as -> ->|]);
       try match goal with H : False |- _ => destruct H end.
  all: split; [reflexivity|].
  all: repeat split; intros; subst; settle_codes; try reflexivity;
       try discriminate; try congruence.
Qed.

Lemma download_client_error_diagnostic_witness :
  let run := download_file_from_s3 Faults.no_bucket (Some "does-not-exist")
               (Some "data/test.csv") (Some "/tmp/test.csv") None None None
               "us-east-1" (start ∅) in
  run.2 = Ret false
  /\ List.last (printed (hist run.1)) ""
     = "❌ Error: Bucket 'does-not-exist' does not exist.".
Proof.
  intros run.
  destruct (download_client_error_diagnostic Faults.no_bucket
              (Some "does-not-exist") (Some "data/test.csv")
              (Some "/tmp/test.csv") None None None "us-east-1" (start ∅)
              run.1 run.2 (hist run.1)
              (EDownloadFile (Some "does-not-exist") (Some "data/test.csv")
                 "/tmp/test.csv"
                 (Raise (ClientError "NoSuchBucket"
                           "The specified bucket does not exist")))
              "NoSuchBucket" "The specified bucket does not exist")
    as (Hret & Hbucket & _).
  - vm_compute. reflexivity.
  - reflexivity.
  - vm_compute. tauto.
  - reflexivity.
  - reflexivity.
  - split; [exact Hret | exact (Hbucket eq_refl)].
Defined.

(** X9: a successful upload with an explicit object key sends exactly one
    transfer request, under that key as given, and reports the URL built
    from it. *)
Theorem upload_explicit_key_url (env : Env) (local_path key : string)
    (bucket_name endpoint_url key_id secret : option string) (region : string)
    (st st' : State) (new : list Event) :
  upload_file_to_s3 env local_path bucket_name (Some key) endpoint_url key_id
    secret region st = (st', Ret true) ->
  hist st' = hist st ++ new ->
  List.filter is_upload new = [EUploadFile local_path bucket_name key (Ret tt)]
  /\ List.last (printed new) ""
     = "📁 File URL: " +:+
       match endpoint_url with
       | None => "https://" +:+ py_str bucket_name +:+ ".s3." +:+ region
                 +:+ ".amazonaws.com/" +:+ key
       | Some endpoint => endpoint +:+ "/" +:+ py_str bucket_name +:+ "/" +:+ key
       end.
Proof.
  intros Hrun Hnew. unfold_script.
  repeat (case_match; simpl in *; simplify_eq); solve_new.
  all: repeat match goal with u : unit |- _ => destruct u end.
  all: split; reflexivity.
Qed.

Lemma upload_explicit_key_url_witness :
  let st := mkState {["/tmp/predictions.csv" := "PassengerId,predictions"]} [] in
  let run := upload_file_to_s3 Sample.fine "/tmp/predictions.csv" (Some "models")
               (Some "data/predictions.csv") (Some "http://minio:9000") None None
               "us-east-1" st in
  run.2 = Ret true
  /\ List.filter is_upload (hist run.1)
     = [EUploadFile "/tmp/predictions.csv" (Some "models") "data/predictions.csv"
          (Ret tt)]
  /\ List.last (printed (hist run.1)) ""
     = "📁 File URL: http://minio:9000/models/data/predictions.csv".
Proof.
  intros st run. split; [vm_compute; reflexivity|].
  apply (upload_explicit_key_url Sample.fine "/tmp/predictions.csv"
           "data/predictions.csv" (Some "models") (Some "http://minio:9000")
           None None "us-east-1" st run.1 (hist run.1));
    vm_compute; reflexivity.
Defined.

(** X10: when the object key is omitted, whatever an upload call sends is
    sent under a flat name: the key is the base name of the local path and
    holds no path separator, so the directory of the local file never shows
    in the bucket. *)
Theorem upload_default_key_flat (env : Env) (local_path : string)
    (bucket_name endpoint_url key_id secret : option string) (region : string)
    (st st' : State) (r : res bool) (new : list Event)
    (path : string) (b : option string) (key : string) (answer : res unit) :
  upload_file_to_s3 env local_path bucket_name None endpoint_url key_id secret
    region st = (st', r) ->
  hist st' = hist st ++ new ->
  In (EUploadFile path b key answer) new ->
  path = local_path /\ b = bucket_name /\ key = path_name local_path
  /\ has_slash key = false.
Proof.
  intros Hrun Hnew Hin.
  destruct (upload_outcome env local_path bucket_name None endpoint_url key_id
              secret region st) as (st2 & ok & new2 & Hup & Hhist & _ & _ & Hkey & _).
  rewrite Hup in Hrun. injection Hrun as <- <-.
  rewrite Hhist in Hnew. apply app_inv_head in Hnew. subst new2.
  destruct (Hkey _ Hin eq_refl) as [answer' Heq].
  injection Heq as -> -> -> _. simpl.
  repeat split. apply path_name_no_slash.
Qed.

Lemma upload_default_key_flat_witness :
  let st := mkState {["/srv/out/predictions.csv" := "PassengerId,predictions"]} [] in
  let run := upload_file_to_s3 Sample.fine "/srv/out/predictions.csv"
               (Some "models") None None None None "us-east-1" st in
  In (EUploadFile "/srv/out/predictions.csv" (Some "models") "predictions.csv"
        (Ret tt)) (hist run.1)
  /\ "predictions.csv" = path_name "/srv/out/predictions.csv"
  /\ has_slash "predictions.csv" = false.
Proof.
  intros st run.
  assert (Hin : In (EUploadFile "/srv/out/predictions.csv" (Some "models")
                      "predictions.csv" (Ret tt)) (hist run.1))
    by (vm_compute; tauto).
  split; [exact Hin|].
  refine (proj2 (proj2 (upload_default_key_flat Sample.fine
            "/srv/out/predictions.csv" (Some "models") None None None "us-east-1"
            st run.1 run.2 (hist run.1) _ _ _ _ _ _ Hin))).
  - vm_compute. reflexivity.
  - reflexivity.
Defined.

(** ** Further properties of the model loader and the driver *)



(** X12: the persist step raises exactly when the local write of the staging
    file raises, with that exception.  It has then not reached the storage
    client and has changed no other local file; the staging file is as it
    was when it could not be opened, and holds a leading part of the
    serialisation otherwise. *)
Theorem persist_raises_iff_write_fails (env : Env) (df : DataFrame)
    (st st' : State) (r : res bool) (new : list Event) :
  persist_predictions env df st = (st', r) ->
  hist st' = hist st ++ new ->
  (forall e, r = Raise e <-> csv_write env st "/tmp/predictions.csv" = Raise e)
  /\ ((exists e, r = Raise e) ->
      count is_s3_event new = 0
      /\ (forall path, path <> "/tmp/predictions.csv" ->
            fs st' !! path = fs st !! path)
      /\ fs st' !! "/tmp/predictions.csv"
         = match csv_failed_after env st "/tmp/predictions.csv" with
           | Some written => Some (String.substring 0 written (csv_text env df))
           | None => fs st !! "/tmp/predictions.csv"
           end).
Proof.
  intros Hrun Hnew.
  unfold persist_predictions, to_csv, bind, ret in Hrun.
  destruct (csv_write env st "/tmp/predictions.csv") as [[]|e0] eqn:Hwrite.
  - match type of Hrun with context [upload_file_to_s3 _ _ _ _ _ _ _ _ ?s] =>
      destruct (upload_outcome env "/tmp/predictions.csv"
                  (getenv env "S3_BUCKET_NAME") (Some "data/predictions.csv")
                  (getenv env "S3_ENDPOINT_URL") (getenv env "AWS_ACCESS_KEY_ID")
                  (getenv env "AWS_SECRET_ACCESS_KEY")
                  (getenv_or env "AWS_DEFAULT_REGION" "us-east-1") s)
        as (st2 & ok & rest & Hup & _)
    end.
    rewrite Hup in Hrun. injection Hrun as <- <-.
    split; [intros e; split; intros H; discriminate H|].
    intros [e He]. discriminate He.
  - injection Hrun as <- <-. simpl in Hnew. apply app_inv_head in Hnew. subst new.
    split; [intros e; split; intros H; by simplify_eq|].
    intros _. split; [reflexivity|]. simpl.
    destruct (csv_failed_after env st "/tmp/predictions.csv") as [written|].
    + split; [|apply lookup_insert_eq].
      intros path Hpath. by apply lookup_insert_ne.
    + split; reflexivity.
Qed.

Lemma persist_raises_iff_write_fails_witness :
  let st := mkState {["/tmp/predictions.csv" := "old"; "/tmp/test.csv" := "in"]} [] in
  let run := persist_predictions Faults.disk_full Sample.input st in
  run.2 = Raise (OtherError "OSError" "[Errno 28] No space left on device")
  /\ count is_s3_event (hist run.1) = 0
  /\ fs run.1 !! "/tmp/test.csv" = Some "in"
  /\ fs run.1 !! "/tmp/predictions.csv" = Some "PassengerId,".
Proof.
  intros st run.
  destruct (persist_raises_iff_write_fails Faults.disk_full Sample.input
              st run.1 run.2 (hist run.1)) as [Hiff Hleft].
  - vm_compute. reflexivity.
  - reflexivity.
  - assert (Hr : run.2 = Raise (OtherError "OSError"
                                  "[Errno 28] No space left on device"))
      by (apply Hiff; reflexivity).
    split; [exact Hr|].
    destruct Hleft as (Hquiet & Hother & Hstaged); [eexists; exact Hr|].
    split; [exact Hquiet|]. split.
    + rewrite (Hother "/tmp/test.csv"); [vm_compute; reflexivity | discriminate].
    + rewrite Hstaged. vm_compute. reflexivity.
Defined.

(** X13: once the input is fetched, the model has answered, the output table
    is assembled and the staging file is written, the run ends normally
    whatever the upload does: the driver drops the boolean of the persist
    step.  The staging file then holds the serialised output table. *)
Theorem run_ends_normally_whatever_upload (env : Env) (st0 st1 st2 : State)
    (df out : DataFrame) (predictions : answer) :
  main_fetch env st0 = (st1, Ret (Some df)) ->
  let announced := mkState (fs st1) (hist st1 ++ [EPrint "Making predictions..."]) in
  predict env df announced = (st2, Ret predictions) ->
  build_preds_df df predictions = Ret out ->
  let shown :=
    mkState (fs st2)
            ((hist st2 ++ [EPrint "Predictions:"])
             ++ [EPrintFrame (frame_head out)]) in
  csv_write env shown "/tmp/predictions.csv" = Ret tt ->
  exists st' rest,
    main env st0 = (st', Ret tt)
    /\ fs st' = <["/tmp/predictions.csv" := csv_text env out]> (fs st2)
    /\ hist st' = hist shown ++ EToCsv "/tmp/predictions.csv" out (Ret tt) :: rest
    /\ count is_local_write rest = 0.
Proof.
  intros Hfetch announced Hpredict Hbuild shown Hwrite.
  unfold main, bind. rewrite Hfetch.
  unfold main_predict, try_except, bind, print, log, read_df, ret. simpl.
  fold announced. rewrite Hpredict.
  unfold main_store, read_df, lift, bind, ret, print, log. rewrite Hbuild. simpl.
  fold shown. unfold persist_predictions, to_csv, bind, ret. rewrite Hwrite.
  match goal with |- context [upload_file_to_s3 _ _ _ _ _ _ _ _ ?s] =>
    destruct (upload_outcome env "/tmp/predictions.csv"
                (getenv env "S3_BUCKET_NAME") (Some "data/predictions.csv")
                (getenv env "S3_ENDPOINT_URL") (getenv env "AWS_ACCESS_KEY_ID")
                (getenv env "AWS_SECRET_ACCESS_KEY")
                (getenv_or env "AWS_DEFAULT_REGION" "us-east-1") s)
      as (st' & ok & rest & Hup & Hhist & Hfs & Hquiet & _)
  end.
  rewrite Hup. exists st', rest. split; [reflexivity|].
  split; [exact Hfs|]. split; [|exact Hquiet].
  rewrite Hhist. simpl. by rewrite <- app_assoc.
Qed.

Lemma run_ends_normally_whatever_upload_witness :
  let env := Sample.unconfigured in
  let st1 := (main_fetch env (start ∅)).1 in
  let announced := mkState (fs st1) (hist st1 ++ [EPrint "Making predictions..."]) in
  let st2 := (predict env Sample.input announced).1 in
  let out := mkFrame 3 [("PassengerId", [VInt 1; VInt 2; VInt 3]);
                        ("predictions", [VInt 0; VInt 1; VInt 0])] in
  count is_upload (hist (main env (start ∅)).1) = 1
  /\ Forall (fun ev => is_upload ev = true -> is_Some (event_error ev))
            (hist (main env (start ∅)).1)
  /\ exists st' rest,
       main env (start ∅) = (st', Ret tt)
       /\ fs st' = <["/tmp/predictions.csv" := csv_text env out]> (fs st2)
       /\ hist st'
          = ((hist st2 ++ [EPrint "Predictions:"]) ++ [EPrintFrame (frame_head out)])
            ++ EToCsv "/tmp/predictions.csv" out (Ret tt) :: rest
       /\ count is_local_write rest = 0.
Proof.
  intros env st1 announced st2 out.
  split; [vm_compute; reflexivity|].
  split; [vm_compute; repeat constructor; try discriminate; eauto|].
  apply (run_ends_normally_whatever_upload env (start ∅) st1 st2 Sample.input out
           (Positional [VInt 0; VInt 1; VInt 0])).
  - vm_compute. reflexivity.
  - vm_compute. reflexivity.
  - reflexivity.
  - reflexivity.
Defined.

(** X14: after a failed download the driver does not stop: it prints the
    failure line and configures the registry all the same.  The run then
    ends with the unbound name [df] reported as a prediction error, unless
    the registry configuration itself raised; the local files stay as the
    download left them. *)
Theorem failed_download_still_configures_tracking (env : Env)
    (files : gmap string string) (st1 st' : State) (r : res unit) :
  main_download env (start files) = (st1, Ret false) ->
  main env (start files) = (st', r) ->
  exists answer after,
    hist st' = hist st1 ++ EPrint "File download failed."
                 :: ESetTrackingUri (getenv env "MLFLOW_TRACKING_URI") answer
                 :: after
    /\ fs st' = fs st1
    /\ ((r = Raise (OtherError "Exception"
                      "❌ Error during prediction: name 'df' is not defined")
         /\ In (EPrint "Making predictions...") after)
        \/ (exists ev e,
              In ev (ESetTrackingUri (getenv env "MLFLOW_TRACKING_URI") answer
                     :: after)
              /\ is_tracking ev = true /\ event_error ev = Some e
              /\ r = Raise e)).
Proof.
  intros Hdown Hmain.
  unfold main, main_fetch, main_predict, main_store, read_df, try_except, bind,
    call, print, log, raise, ret in Hmain.
  rewrite Hdown in Hmain. simpl in Hmain.
  destruct (set_tracking_uri env _ _) as [[]|e1] eqn:Hset; simpl in Hmain;
    [destruct (get_tracking_uri env _) as [uri|e2] eqn:Hget; simpl in Hmain|].
  all: injection Hmain as <- <-; simpl; rewrite <- ?app_assoc; simpl.
  all: do 2 eexists; split; [reflexivity|]; split; [reflexivity|].
  - left. split; [reflexivity|]. simpl. tauto.
  - right. exists (EGetTrackingUri (Raise e2)), e2. simpl. tauto.
  - right. eexists (ESetTrackingUri _ (Raise e1)), e1. simpl. tauto.
Qed.

Lemma failed_download_still_configures_tracking_witness :
  let env := Sample.absent in
  let st1 := (main_download env (start ∅)).1 in
  let run := main env (start ∅) in
  main_download env (start ∅) = (st1, Ret false)
  /\ exists answer after,
       hist run.1 = hist st1 ++ EPrint "File download failed."
                      :: ESetTrackingUri (getenv env "MLFLOW_TRACKING_URI") answer
                      :: after
       /\ fs run.1 = fs st1
       /\ ((run.2 = Raise (OtherError "Exception"
                             "❌ Error during prediction: name 'df' is not defined")
            /\ In (EPrint "Making predictions...") after)
           \/ (exists ev e,
                 In ev (ESetTrackingUri (getenv env "MLFLOW_TRACKING_URI") answer
                        :: after)
                 /\ is_tracking ev = true /\ event_error ev = Some e
                 /\ run.2 = Raise e)).
Proof.
  intros env st1 run.
  assert (Hdown : main_download env (start ∅) = (st1, Ret false))
    by (vm_compute; reflexivity).
  split; [exact Hdown|].
  apply (failed_download_still_configures_tracking env ∅ st1 run.1 run.2 Hdown).
  vm_compute. reflexivity.
Defined.

(** X16: when the assembly of the output table fails, the run ends with
    that exception as it is (it is not wrapped), in the state in which the
    model answered: nothing is printed, staged or uploaded afterwards. *)
Theorem assembly_failure_ends_run (env : Env) (st0 st1 st2 : State)
    (df : DataFrame) (predictions : answer) (e : exn) :
  main_fetch env st0 = (st1, Ret (Some df)) ->
  let announced := mkState (fs st1) (hist st1 ++ [EPrint "Making predictions..."]) in
  predict env df announced = (st2, Ret predictions) ->
  build_preds_df df predictions = Raise e ->
  main env st0 = (st2, Raise e).
Proof.
  intros Hfetch announced Hpredict Hbuild.
  unfold main, bind. rewrite Hfetch.
  unfold main_predict, try_except, bind, print, log, read_df, ret. simpl.
  fold announced. rewrite Hpredict.
  unfold main_store, read_df, lift, bind, ret. by rewrite Hbuild.
Qed.

Lemma assembly_failure_ends_run_witness :
  let st1 := (main_fetch Faults.short_answer (start ∅)).1 in
  let announced := mkState (fs st1) (hist st1 ++ [EPrint "Making predictions..."]) in
  let st2 := (predict Faults.short_answer Sample.input announced).1 in
  main Faults.short_answer (start ∅)
  = (st2, Raise (OtherError "ValueError"
                   "array length 2 does not match index length 3"))
  /\ main Faults.anonymous (start ∅)
     = ((main Faults.anonymous (start ∅)).1,
        Raise (OtherError "KeyError" "'PassengerId'")).
Proof.
  intros st1 announced st2. split.
  - apply (assembly_failure_ends_run Faults.short_answer (start ∅) st1 st2
             Sample.input (Positional [VInt 0; VInt 1])).
    + vm_compute. reflexivity.
    + vm_compute. reflexivity.
    + vm_compute. reflexivity.
  - vm_compute. reflexivity.
Defined.

(** X17: when the staged input cannot be parsed after a successful download,
    the run ends with the parser's exception as it is, in the state of the
    failed read: the registry is not configured and the model is not
    reached. *)
Theorem parse_failure_ends_run (env : Env) (st0 st1 st2 : State) (e : exn) :
  main_download env st0 = (st1, Ret true) ->
  read_csv env "/tmp/test.csv" st1 = (st2, Raise e) ->
  main env st0 = (st2, Raise e)
  /\ exists answer, hist st2 = hist st1 ++ [EReadCsv "/tmp/test.csv" answer].
Proof.
  intros Hdown Hread. split.
  - unfold main, main_fetch, bind. by rewrite Hdown, Hread.
  - unfold read_csv in Hread. injection Hread as <- _. eauto.
Qed.

Lemma parse_failure_ends_run_witness :
  let st1 := (main_download Faults.garbled (start ∅)).1 in
  let st2 := (read_csv Faults.garbled "/tmp/test.csv" st1).1 in
  main Faults.garbled (start ∅)
  = (st2, Raise (OtherError "ParserError" "Error tokenizing data"))
  /\ exists answer, hist st2 = hist st1 ++ [EReadCsv "/tmp/test.csv" answer].
Proof.
  intros st1 st2.
  apply (parse_failure_ends_run Faults.garbled (start ∅) st1 st2).
  - vm_compute. reflexivity.
  - vm_compute. reflexivity.
Defined.

(** X18: what the driver parses is what its download stored: after a
    successful download step the staging path holds the content the
    transfer delivered, and reading the staged input hands exactly that
    content to the parser. *)
Theorem driver_parses_downloaded_content (env : Env) (st st1 : State)
    (new : list Event) :
  main_download env st = (st1, Ret true) ->
  hist st1 = hist st ++ new ->
  exists content,
    In (EDownloadFile (getenv env "S3_BUCKET_NAME") (getenv env "S3_OBJECT_KEY")
          "/tmp/test.csv" (Ret content)) new
    /\ fs st1 !! "/tmp/test.csv" = Some content
    /\ read_csv env "/tmp/test.csv" st1
       = (mkState (fs st1)
            (hist st1 ++ [EReadCsv "/tmp/test.csv" (parse_csv env st1 content)]),
          parse_csv env st1 content).
Proof.
  intros Hrun Hnew.
  assert (Hstored : exists content,
            In (EDownloadFile (getenv env "S3_BUCKET_NAME")
                  (getenv env "S3_OBJECT_KEY") "/tmp/test.csv" (Ret content)) new
            /\ fs st1 = <["/tmp/test.csv" := content]> (fs st)).
  { unfold_script.
    repeat (case_match; simpl in *; simplify_eq); solve_new.
    all: eexists; split; [simpl; eauto 10 | reflexivity]. }
  destruct Hstored as (content & Hin & Hfs).
  exists content. split; [exact Hin|].
  assert (Hlook : fs st1 !! "/tmp/test.csv" = Some content)
    by (rewrite Hfs; apply lookup_insert_eq).
  split; [exact Hlook|].
  unfold read_csv. by rewrite Hlook.
Qed.

Lemma driver_parses_downloaded_content_witness :
  let st1 := (main_download Sample.fine (start ∅)).1 in
  exists content,
    In (EDownloadFile (getenv Sample.fine "S3_BUCKET_NAME")
          (getenv Sample.fine "S3_OBJECT_KEY") "/tmp/test.csv" (Ret content))
       (hist st1)
    /\ fs st1 !! "/tmp/test.csv" = Some content
    /\ read_csv Sample.fine "/tmp/test.csv" st1
       = (mkState (fs st1)
            (hist st1 ++ [EReadCsv "/tmp/test.csv"
                            (parse_csv Sample.fine st1 content)]),
          parse_csv Sample.fine st1 content).
Proof.
  intros st1.
  apply (driver_parses_downloaded_content Sample.fine (start ∅) st1 (hist st1)).
  - vm_compute. reflexivity.
  - reflexivity.
Defined.

(** X19: a run that ends normally has done the whole pipeline: the staged
    input was parsed to a table, the model answered for that table, the
    output table assembled from both was written to the staging file, and
    that file holds its serialisation at the end. *)
Theorem normal_end_means_staged (env : Env) (files : gmap string string)
    (st' : State) :
  main env (start files) = (st', Ret tt) ->
  exists df predictions out,
    In (EReadCsv "/tmp/test.csv" (Ret df)) (hist st')
    /\ In (EModelPredict df (Ret predictions)) (hist st')
    /\ build_preds_df df predictions = Ret out
    /\ In (EToCsv "/tmp/predictions.csv" out (Ret tt)) (hist st')
    /\ fs st' !! "/tmp/predictions.csv" = Some (csv_text env out).
Proof.
  intros Hmain.
  unfold main, main_fetch, main_predict, main_store, persist_predictions, predict,
    read_df, lift, read_csv, to_csv, call, print, log, try_except, bind, raise,
    ret in Hmain.
  repeat (case_match; simpl in *; simplify_eq).
  all: repeat match goal with u : unit |- _ => destruct u end.
  all: match goal with
       | Hup : upload_file_to_s3 ?e ?p ?b ?k ?u ?i ?s ?g ?s0 = (_, _) |- _ =>
           destruct (upload_outcome e p b k u i s g s0)
             as (st2 & ok & rest & Hup2 & Hhist & Hfs & _);
           rewrite Hup in Hup2; injection Hup2 as <- <-
       end.
  all: simpl in Hhist, Hfs; rewrite Hhist, Hfs.
  all: repeat match goal with
       | H : model_predict _ _ _ = Ret _ |- _ => rewrite H in *; clear H
       end.
  all: match goal with
       | Hb : build_preds_df ?d ?p = Ret ?o |- _ => exists d, p, o
       end.
  all: repeat (rewrite in_app_iff); simpl.
  all: split; [tauto|]; split; [tauto|]; split; [assumption|]; split; [tauto|].
  all: apply lookup_insert_eq.
Qed.

Lemma normal_end_means_staged_witness :
  let run := main Sample.fine (start ∅) in
  run.2 = Ret tt
  /\ exists df predictions out,
       In (EReadCsv "/tmp/test.csv" (Ret df)) (hist run.1)
       /\ In (EModelPredict df (Ret predictions)) (hist run.1)
       /\ build_preds_df df predictions = Ret out
       /\ In (EToCsv "/tmp/predictions.csv" out (Ret tt)) (hist run.1)
       /\ fs run.1 !! "/tmp/predictions.csv" = Some (csv_text Sample.fine out).
Proof.
  intros run. split; [vm_compute; reflexivity|].
  apply (normal_end_means_staged Sample.fine ∅ run.1).
  vm_compute. reflexivity.
Defined.
